(** * pypandoc: the pandoc downloader ([pypandoc/pandoc_download.py])

    A shallow embedding of [pandoc_download.py] and the properties of its
    URL resolver, its permission helper, its three platform unpackers and
    of [download_pandoc] itself.

    The Python code is effectful: it reads the interpreter's environment,
    talks to the network, spawns external tools and mutates the file
    system, and any of these may raise.  It is embedded in a state and
    exception monad over an explicit [World]; everything the operating
    system decides on its own (what a tool does, what a server answers,
    which directory refuses a write) is a field of an [Env]. *)

From Stdlib Require Import ZArith Ascii String List Lia.
From stdpp Require Import base option gmap strings list fin_maps.

Local Open Scope Z_scope.

(** ** Strings, the way the Python code uses them *)

Module Str.

(** [s.startswith(p)] *)
Definition startswith (p s : string) : bool := String.prefix p s.

(** [s.split(c)] for a one-character separator: never empty. *)
Fixpoint split (c : ascii) (s : string) : list string :=
  match s with
  | EmptyString => [EmptyString]
  | String a rest =>
      if Ascii.eqb a c then EmptyString :: split c rest
      else match split c rest with
           | [] => [String a EmptyString]
           | hd :: tl => String a hd :: tl
           end
  end.

(** [l[-1]] on a list of strings; Python raises [IndexError] on the empty
    list, which [split] never returns. *)
Definition last (l : list string) : string := List.last l EmptyString.

(** [sep.join(l)] *)
Definition join (sep : string) (l : list string) : string := String.concat sep l.

Definition slash : ascii := "/"%char.

(** [s] holds a NUL character: no system call takes such a name. *)
Fixpoint has_nul (s : string) : bool :=
  match s with
  | EmptyString => false
  | String a rest => Ascii.eqb a Ascii.zero || has_nul rest
  end.

Definition endswith_slash (s : string) : bool :=
  match String.get (Nat.pred (String.length s)) s with
  | Some a => Ascii.eqb a slash
  | None => false
  end.

End Str.

(** ** [_get_pandoc_urls] *)

Definition release_base : string :=
  "https://github.com/jgm/pandoc/releases/download/".

Definition _get_pandoc_urls (version : string) : gmap string string :=
  let deb_subffix := "-1" in
  let url_base := release_base +:+ version +:+ "/pandoc-" +:+ version in
  <["win32" := url_base +:+ "-windows.msi"]>
    (<["linux" := url_base +:+ deb_subffix +:+ "-amd64.deb"]>
       (<["darwin" := url_base +:+ "-osx.pkg"]> ∅)).

Definition DEFAULT_TARGET_FOLDER : gmap string string :=
  <["win32" := "~\AppData\Local\Pandoc"]>
    (<["linux" := "~/bin"]>
       (<["darwin" := "~/Applications/pandoc"]> ∅)).

(** ** [os.path] on a POSIX host

    [posixpath] is the library the code calls on Linux and on macOS.  The
    file system below is keyed by normalised absolute paths in this
    syntax. *)

Module Path.

(** [posixpath.isabs] *)
Definition isabs (p : string) : bool := Str.startswith "/" p.

(** [posixpath.join(a, b)] *)
Definition join (a b : string) : string :=
  if Str.startswith "/" b then b
  else if (String.eqb a "" || Str.endswith_slash a)%bool then a +:+ b
  else a +:+ "/" +:+ b.

(** [posixpath.join(a, *p)] *)
Definition joins (a : string) (p : list string) : string := fold_left join p a.

(** The loop of [posixpath.normpath]: [acc] is [new_comps], last first. *)
Fixpoint norm_comps (rooted : bool) (comps acc : list string) : list string :=
  match comps with
  | [] => rev acc
  | comp :: rest =>
      if (String.eqb comp "" || String.eqb comp ".")%bool
      then norm_comps rooted rest acc
      else if negb (String.eqb comp "..") then norm_comps rooted rest (comp :: acc)
      else match acc with
           | [] => if rooted then norm_comps rooted rest acc
                   else norm_comps rooted rest (comp :: acc)
           | top :: below =>
               if String.eqb top ".." then norm_comps rooted rest (comp :: acc)
               else norm_comps rooted rest below
           end
  end.

(** [posixpath.normpath] *)
Definition normpath (p : string) : string :=
  if String.eqb p "" then "."
  else
    let initial_slashes :=
      if Str.startswith "/" p
      then if (Str.startswith "//" p && negb (Str.startswith "///" p))%bool
           then "//" else "/"
      else "" in
    let rooted := negb (String.eqb initial_slashes "") in
    let path :=
      initial_slashes +:+ Str.join "/" (norm_comps rooted (Str.split Str.slash p) []) in
    if String.eqb path "" then "." else path.

(** [posixpath.abspath], with the working directory passed in. *)
Definition abspath (cwd p : string) : string :=
  normpath (if isabs p then p else join cwd p).

(** [s.rstrip("/")] *)
Fixpoint rstrip_slash (s : string) : string :=
  match s with
  | EmptyString => EmptyString
  | String a rest =>
      let rest' := rstrip_slash rest in
      if (Ascii.eqb a Str.slash && String.eqb rest' "")%bool then EmptyString
      else String a rest'
  end.

(** [posixpath.expanduser] for the current user, whose home directory is
    [home]; the [~user] form is left alone, as Python does for a user it
    cannot find. *)
Definition expanduser (home p : string) : string :=
  match p with
  | String "~" rest =>
      if (String.eqb rest "" || Str.startswith "/" rest)%bool
      then let r := rstrip_slash home +:+ rest in
           if String.eqb r "" then "/" else r
      else p
  | _ => p
  end.

(** The components of a normalised absolute path. *)
Definition comps (p : string) : list string :=
  filter (fun c => c ≠ EmptyString) (Str.split Str.slash p).

Definition of_comps (l : list string) : string := "/" +:+ Str.join "/" l.

(** The directory holding a normalised absolute path. *)
Definition parent (p : string) : string := of_comps (removelast (comps p)).

(** The directories above a normalised absolute path, outermost first:
    the heads [os.makedirs] walks through. *)
Definition ancestors (p : string) : list string :=
  let cs := removelast (comps p) in
  map (fun n => of_comps (firstn n cs)) (seq 1 (List.length cs)).

(** [p] lies strictly below the directory [d]. *)
Definition below (d p : string) : bool :=
  Str.startswith (if Str.endswith_slash d then d else d +:+ "/") p
  && negb (String.eqb d p).

End Path.

(** The [os.path] module of the host.  The downloader only goes through
    this interface, so what is proved of it holds whichever module the
    host provides ([posixpath] or [ntpath]). *)
Record OsPath := {
  op_join : string -> string -> string;
  op_abspath : string -> string -> string;      (* working directory, path *)
  op_expanduser : string -> string -> string;   (* home, path *)
  op_parent : string -> string;
  op_ancestors : string -> list string;
  op_below : string -> string -> bool;
}.

Definition posixpath : OsPath := {|
  op_join := Path.join;
  op_abspath := Path.abspath;
  op_expanduser := Path.expanduser;
  op_parent := Path.parent;
  op_ancestors := Path.ancestors;
  op_below := Path.below;
|}.

(** ** The world the downloader runs in *)

(** A node of the file system, with its [st_mode]. *)
Inductive node :=
| File (data : string) (mode : Z)
| Dir (mode : Z).

Definition st_mode (n : node) : Z :=
  match n with File _ m => m | Dir m => m end.

Definition set_mode (m : Z) (n : node) : node :=
  match n with File d _ => File d m | Dir _ => Dir m end.

Definition is_file (o : option node) : bool :=
  match o with Some (File _ _) => true | _ => false end.

Definition is_dir (o : option node) : bool :=
  match o with Some (Dir _) => true | _ => false end.

Inductive errno := ENOENT | EEXIST | ENOTDIR | EISDIR | EACCES.

(** The exceptions the module can let through. *)
Inductive exn :=
| RuntimeError (msg : string)
| OSError (code : errno) (filename : string)
| SameFileError (src dst : string)
| CalledProcessError (returncode : Z) (cmd : list string)
| URLError (url : string)
| IncompleteRead (partial : string)
| ValueError (msg : string)
| AssertionError (msg : string)
| KeyError (key : string).

(** What changes while the code runs. *)
Record World := mkWorld {
  fs : gmap string node;     (* the file system, by absolute path *)
  cwd : string;              (* the working directory of the process *)
  calls : list string;       (* the URLs handed to [urlopen], oldest first *)
  stdout : list string;      (* the lines printed *)
}.

(** A response of the server that is being read: the body it sends and
    where, if anywhere, the connection drops. *)
Record response := mkResponse {
  r_body : string;
  r_cut : option nat;
}.

(** How an external command ended. *)
Inductive exit := Exited (returncode : Z) | NotFound.

(** What the code can only ask for. *)
Record Env := mkEnv {
  sys_platform : string;               (* [sys.platform] *)
  architecture : string;               (* [platform.architecture()[0]] *)
  home : string;                       (* the home directory of the user: the hosts
                                          covered are those where there is one *)
  umask : Z;
  os_path : OsPath;
  tmp_names : list string;             (* the names [mkdtemp] tries, in order *)
  remote : string -> option string;    (* the body a URL serves, if it serves one;
                                          a URL that cannot be asked for serves none *)
  cut : string -> option nat;          (* the bytes after which the connection to a
                                          URL drops, if it does *)
  denied : string -> bool;             (* paths the system refuses to create or write *)
  (* an external command, run in a working directory on a file system *)
  tool : list string -> string -> gmap string node -> exit * gmap string node;
}.

Definition set_fs (f : gmap string node) (w : World) : World :=
  mkWorld f (cwd w) (calls w) (stdout w).
Definition set_cwd (d : string) (w : World) : World :=
  mkWorld (fs w) d (calls w) (stdout w).
Definition add_call (u : string) (w : World) : World :=
  mkWorld (fs w) (cwd w) (calls w ++ [u]) (stdout w).
Definition add_line (l : string) (w : World) : World :=
  mkWorld (fs w) (cwd w) (calls w) (stdout w ++ [l]).

(** ** The monad: state, and exceptions that keep the state *)

Inductive result (A : Type) :=
| Ok (a : A)
| Raise (e : exn).
Arguments Ok {A} a.
Arguments Raise {A} e.

Definition M (A : Type) : Type := World -> result A * World.

Definition ret {A} (a : A) : M A := fun w => (Ok a, w).
Definition raise {A} (e : exn) : M A := fun w => (Raise e, w).

Definition bind {A B} (m : M A) (k : A -> M B) : M B :=
  fun w => match m w with
           | (Ok a, w') => k a w'
           | (Raise e, w') => (Raise e, w')
           end.

Notation "'let*' x ':=' m 'in' k" := (bind m (fun x => k))
  (at level 10, x name, m at level 100, k at level 200).
Notation "m >>> k" := (bind m (fun _ => k))
  (at level 90, right associativity).

(** [try: body finally: final].  [final] always runs; what it raises
    replaces the outcome of [body]. *)
Definition try_finally {A} (body : M A) (final : M unit) : M A :=
  fun w => match body w with
           | (r, w') => match final w' with
                        | (Ok _, w'') => (r, w'')
                        | (Raise e, w'') => (Raise e, w'')
                        end
           end.

(** [try: body except OSError: handler] *)
Definition try_except_OSError (body handler : M unit) : M unit :=
  fun w => match body w with
           | (Raise (OSError _ _), w') => handler w'
           | other => other
           end.

(** [for x in l: body(x)] *)
Fixpoint for_each {A} (l : list A) (body : A -> M unit) : M unit :=
  match l with
  | [] => ret tt
  | x :: rest => body x >>> for_each rest body
  end.

Definition get {A} (f : World -> A) : M A := fun w => (Ok (f w), w).
Definition modify (f : World -> World) : M unit := fun w => (Ok tt, f w).

(** ** Permission bits *)

Definition S_IFREG : Z := 0x8000.   (* 0o100000 *)
Definition S_IFDIR : Z := 0x4000.   (* 0o040000 *)
Definition o7777 : Z := 0xfff.      (* the bits [chmod] sets *)
Definition o777 : Z := 0x1ff.
Definition o700 : Z := 0x1c0.
Definition o666 : Z := 0x1b6.
Definition o444 : Z := 0x124.       (* read for owner, group and other *)

Section Downloader.

Context (env : Env).

Local Abbreviation P := (os_path env).

(** ** The system calls and library functions the module uses *)

(** The absolute path a system call acts on; the empty path names nothing. *)
Definition resolve (p : string) : M string :=
  fun w => if String.eqb p "" then (Raise (OSError ENOENT p), w)
           else (Ok (op_abspath P (cwd w) p), w).

(** [print(line)] *)
Definition print (line : string) : M unit := modify (add_line line).

(** [os.getcwd()]: fails once the working directory has been removed. *)
Definition os_getcwd : M string :=
  fun w => if is_dir (fs w !! cwd w) then (Ok (cwd w), w)
           else (Raise (OSError ENOENT ""), w).

(** [os.path.abspath(p)] *)
Definition os_path_abspath (p : string) : M string :=
  fun w => (Ok (op_abspath P (cwd w) p), w).

(** [os.path.expanduser(p)] *)
Definition os_path_expanduser (p : string) : M string :=
  ret (op_expanduser P (home env) p).

(** [os.path.join(a, *p)] *)
Definition os_path_join (a : string) (p : list string) : string :=
  fold_left (op_join P) p a.

(** [os.path.isfile(p)] *)
Definition os_path_isfile (p : string) : M bool :=
  fun w => if String.eqb p "" then (Ok false, w)
           else (Ok (is_file (fs w !! op_abspath P (cwd w) p)), w).

(** [os.chdir(p)] *)
Definition os_chdir (p : string) : M unit :=
  let* r := resolve p in
  fun w => match fs w !! r with
           | Some (Dir _) => (Ok tt, set_cwd r w)
           | Some (File _ _) => (Raise (OSError ENOTDIR p), w)
           | None => (Raise (OSError ENOENT p), w)
           end.

(** [os.mkdir], on a resolved path [r]; [shown] is the path as the caller
    wrote it.  A name with a NUL character is refused with [ValueError]
    before the system is asked; no name on disk has one. *)
Definition mkdir_at (r shown : string) (mode : Z) : M unit :=
  fun w => match fs w !! r with
           | Some _ => (Raise (OSError EEXIST shown), w)
           | None =>
               if Str.has_nul shown then (Raise (ValueError "embedded null byte"), w)
               else
                 match fs w !! op_parent P r with
                 | None => (Raise (OSError ENOENT shown), w)
                 | Some (File _ _) => (Raise (OSError ENOTDIR shown), w)
                 | Some (Dir _) =>
                     if denied env r then (Raise (OSError EACCES shown), w)
                     else (Ok tt, set_fs (<[r := Dir (Z.lor S_IFDIR mode)]> (fs w)) w)
                 end
           end.

Definition default_dir_mode : Z := Z.land o777 (Z.lnot (umask env)).
Definition default_file_mode : Z := Z.lor S_IFREG (Z.land o666 (Z.lnot (umask env))).

(** [os.makedirs(p)]: the missing directories above [p], outermost first,
    then [p] itself, which must not exist. *)
Definition os_makedirs (p : string) : M unit :=
  let* r := resolve p in
  for_each (op_ancestors P r)
    (fun a => fun w => match fs w !! a with
                       | Some _ => (Ok tt, w)
                       | None => mkdir_at a a default_dir_mode w
                       end) >>>
  mkdir_at r p default_dir_mode.

(** The loop of [tempfile.mkdtemp] over the candidate names. *)
Fixpoint mkdtemp_from (names : list string) : M string :=
  match names with
  | [] => raise (OSError EEXIST "No usable temporary directory name found")
  | n :: rest =>
      fun w => match mkdir_at n n o700 w with
               | (Ok _, w') => (Ok n, w')
               | (Raise (OSError EEXIST _), w') => mkdtemp_from rest w'
               | (Raise e, w') => (Raise e, w')
               end
  end.

(** [tempfile.mkdtemp()] *)
Definition tempfile_mkdtemp : M string := mkdtemp_from (tmp_names env).

(** Opening [p] for writing and storing [data] in it. *)
Definition write_file (p data : string) : M unit :=
  let* r := resolve p in
  fun w => match fs w !! r with
           | Some (Dir _) => (Raise (OSError EISDIR p), w)
           | Some (File _ m) =>
               if denied env r then (Raise (OSError EACCES p), w)
               else (Ok tt, set_fs (<[r := File data m]> (fs w)) w)
           | None =>
               match fs w !! op_parent P r with
               | None => (Raise (OSError ENOENT p), w)
               | Some (File _ _) => (Raise (OSError ENOTDIR p), w)
               | Some (Dir _) =>
                   if denied env r then (Raise (OSError EACCES p), w)
                   else (Ok tt, set_fs (<[r := File data default_file_mode]> (fs w)) w)
               end
           end.

(** Opening [p] for reading and reading it whole. *)
Definition read_file (p : string) : M string :=
  let* r := resolve p in
  fun w => match fs w !! r with
           | Some (File data _) => (Ok data, w)
           | Some (Dir _) => (Raise (OSError EISDIR p), w)
           | None => (Raise (OSError ENOENT p), w)
           end.

(** [shutil.copyfile(src, dst)]: contents only, not the mode. *)
Definition shutil_copyfile (src dst : string) : M unit :=
  let* rs := resolve src in
  let* rd := resolve dst in
  if String.eqb rs rd then raise (SameFileError src dst)
  else let* data := read_file src in write_file dst data.

(** [os.stat(p).st_mode] *)
Definition os_stat_st_mode (p : string) : M Z :=
  let* r := resolve p in
  fun w => match fs w !! r with
           | Some n => (Ok (st_mode n), w)
           | None => (Raise (OSError ENOENT p), w)
           end.

(** [os.chmod(p, mode)]: only the twelve permission bits of [mode] count. *)
Definition os_chmod (p : string) (mode : Z) : M unit :=
  let* r := resolve p in
  fun w => match fs w !! r with
           | Some n =>
               let m := Z.lor (Z.land (st_mode n) (Z.lnot o7777)) (Z.land mode o7777) in
               (Ok tt, set_fs (<[r := set_mode m n]> (fs w)) w)
           | None => (Raise (OSError ENOENT p), w)
           end.

(** [shutil.rmtree(p)]: the directory and all that lies below it. *)
Definition shutil_rmtree (p : string) : M unit :=
  let* r := resolve p in
  fun w => match fs w !! r with
           | Some (Dir _) =>
               (Ok tt,
                set_fs (filter (fun kv => kv.1 ≠ r ∧ op_below P r kv.1 = false) (fs w)) w)
           | Some (File _ _) => (Raise (OSError ENOTDIR p), w)
           | None => (Raise (OSError ENOENT p), w)
           end.

(** [subprocess.check_call(cmd)] *)
Definition subprocess_check_call (cmd : list string) : M unit :=
  fun w => match tool env cmd (cwd w) (fs w) with
           | (Exited rc, f) =>
               if Z.eqb rc 0 then (Ok tt, set_fs f w)
               else (Raise (CalledProcessError rc cmd), set_fs f w)
           | (NotFound, f) => (Raise (OSError ENOENT (List.hd "" cmd)), set_fs f w)
           end.

(** [urlopen(url)]: one call on the download channel.  It raises when
    the server cannot be reached or answers with an error status;
    otherwise it returns the response, of which nothing has been read
    yet. *)
Definition urlopen (url : string) : M response :=
  modify (add_call url) >>>
  match remote env url with
  | Some body => ret (mkResponse body (cut env url))
  | None => raise (URLError url)
  end.

(** [open(p, 'wb')]: the file is there and empty.  The file object is
    stood for by the path it was opened under. *)
Definition open_wb (p : string) : M string := write_file p "" >>> resolve p.

(** [shutil.copyfileobj(response, out_file)]: the body goes to the file
    as it comes in.  When the connection drops, what has come in stays
    in the file and the read raises. *)
Definition shutil_copyfileobj (resp : response) (out_file : string) : M unit :=
  fun w =>
    let store data :=
      match fs w !! out_file with
      | Some (File _ m) => set_fs (<[out_file := File data m]> (fs w)) w
      | _ => w
      end in
    match r_cut resp with
    | None => (Ok tt, store (r_body resp))
    | Some n =>
        let partial := String.substring 0 n (r_body resp) in
        (Raise (IncompleteRead partial), store partial)
    end.

(** ** The module's functions *)

Definition _make_executable (path : string) : M unit :=
  let* mode := os_stat_st_mode path in
  let mode := Z.lor mode (Z.shiftr (Z.land mode o444) 2) in   (* copy R bits to X *)
  print ("* Making " +:+ path +:+ " executeable...") >>>
  os_chmod path mode.

Definition _handle_linux (filename targetfolder : string) : M unit :=
  print ("* Unpacking " +:+ filename +:+ " to tempfolder...") >>>
  let* tempfolder := tempfile_mkdtemp in
  let* cur_wd := os_getcwd in
  let* filename := os_path_abspath filename in
  try_finally
    (os_chdir tempfolder >>>
     subprocess_check_call ["ar"; "x"; filename] >>>
     subprocess_check_call ["tar"; "xzf"; "data.tar.gz"] >>>
     (* pandoc and pandoc-citeproc are in ./usr/bin subfolder *)
     for_each ["pandoc"; "pandoc-citeproc"]
       (fun exe =>
          let src := os_path_join tempfolder ["usr"; "bin"; exe] in
          let dst := os_path_join targetfolder [exe] in
          print ("* Copying " +:+ exe +:+ " to " +:+ targetfolder +:+ " ...") >>>
          shutil_copyfile src dst >>>
          _make_executable dst) >>>
     let src := os_path_join tempfolder ["usr"; "share"; "doc"; "pandoc"; "copyright"] in
     let dst := os_path_join targetfolder ["copyright.pandoc"] in
     print ("* Copying copyright to " +:+ targetfolder +:+ " ...") >>>
     shutil_copyfile src dst)
    (os_chdir cur_wd >>>
     shutil_rmtree tempfolder).

Definition _handle_darwin (filename targetfolder : string) : M unit :=
  print ("* Unpacking " +:+ filename +:+ " to tempfolder...") >>>
  let* tempfolder := tempfile_mkdtemp in
  let pkgutilfolder := os_path_join tempfolder ["tmp"] in
  subprocess_check_call ["pkgutil"; "--expand"; filename; pkgutilfolder] >>>
  (* this will generate usr/local/bin below the dir *)
  subprocess_check_call
    ["tar"; "xvf"; os_path_join pkgutilfolder ["pandoc.pkg"; "Payload"];
     "-C"; pkgutilfolder] >>>
  (* pandoc and pandoc-citeproc are in the ./usr/local/bin subfolder *)
  for_each ["pandoc"; "pandoc-citeproc"]
    (fun exe =>
       let src := os_path_join pkgutilfolder ["usr"; "local"; "bin"; exe] in
       let dst := os_path_join targetfolder [exe] in
       print ("* Copying " +:+ exe +:+ " to " +:+ targetfolder +:+ " ...") >>>
       shutil_copyfile src dst >>>
       _make_executable dst) >>>
  (* remove temporary dir *)
  shutil_rmtree tempfolder >>>
  print "* Done.".

Definition _handle_win32 (filename targetfolder : string) : M unit :=
  print ("* Unpacking " +:+ filename +:+ " to tempfolder...") >>>
  let* tempfolder := tempfile_mkdtemp in
  subprocess_check_call
    ["msiexec"; "/a"; filename; "/qb"; "TARGETDIR=" +:+ tempfolder] >>>
  (* pandoc.exe, pandoc-citeproc.exe, and the COPYRIGHT are in the Pandoc subfolder *)
  for_each ["pandoc.exe"; "pandoc-citeproc.exe"; "COPYRIGHT.txt"]
    (fun exe =>
       let src := os_path_join tempfolder ["Pandoc"; exe] in
       let dst := os_path_join targetfolder [exe] in
       print ("* Copying " +:+ exe +:+ " to " +:+ targetfolder +:+ " ...") >>>
       shutil_copyfile src dst) >>>
  (* remove temporary dir *)
  shutil_rmtree tempfolder >>>
  print "* Done.".

(** [globals().get(name)], as far as the unpackers go. *)
Definition globals_get (name : string) : option (string -> string -> M unit) :=
  if String.eqb name "_handle_linux" then Some _handle_linux
  else if String.eqb name "_handle_darwin" then Some _handle_darwin
  else if String.eqb name "_handle_win32" then Some _handle_win32
  else None.

(** Lines 147 to 165: the platform key and the URL to fetch. *)
Definition platform_key (pandoc_urls : gmap string string) : M string :=
  let pf := sys_platform env in
  (* compatibility with py3 *)
  let* pf :=
    (if Str.startswith "linux" pf then
       if negb (String.eqb (architecture env) "64bit")
       then raise (RuntimeError "Linux pandoc is only compiled for 64bit.")
       else ret "linux"
     else ret pf) in
  match pandoc_urls !! pf with
  | None => raise (RuntimeError "Can't handle your platform (only Linux, Mac OS X, Windows).")
  | Some _ => ret pf
  end.

(** Lines 167 to 175: the archive, downloaded unless it is there. *)
Definition fetch (url : string) : M string :=
  let filename := Str.last (Str.split Str.slash url) in
  let* present := os_path_isfile filename in
  (if present then
     print ("* Using already downloaded file " +:+ filename)
   else
     print ("* Downloading pandoc from " +:+ url +:+ " ...") >>>
     let* response := urlopen url in
     let* out_file := open_wb filename in
     shutil_copyfileobj response out_file) >>>
  ret filename.

(** Lines 177 to 185: the target folder, made if it can be. *)
Definition make_target (pf : string) (targetfolder : option string) : M string :=
  let* targetfolder :=
    match targetfolder with
    | Some t => ret t
    | None => match DEFAULT_TARGET_FOLDER !! pf with
              | Some t => ret t
              | None => raise (KeyError pf)
              end
    end in
  let* targetfolder := os_path_expanduser targetfolder in
  (* Make sure target folder exists... *)
  try_except_OSError (os_makedirs targetfolder) (ret tt (* dir already exists... *)) >>>
  ret targetfolder.

(** Lines 187 to 190: the unpacker of the platform, by name. *)
Definition dispatch (pf filename targetfolder : string) : M unit :=
  match globals_get ("_handle_" +:+ pf) with
  | None =>
      raise (AssertionError
               "Can't handle download, only Linux, Windows and OS X are supported.")
  | Some unpack => unpack filename targetfolder
  end.

Definition download_pandoc (url targetfolder version : option string) : M unit :=
  (* get pandoc_urls *)
  let version := match version with
                 | None => "1.19.1"   (* hard-code version for now *)
                 | Some v => v
                 end in
  let pandoc_urls := _get_pandoc_urls version in
  let* pf := platform_key pandoc_urls in
  let* url := match url with
              | Some u => ret u
              | None => match pandoc_urls !! pf with
                        | Some u => ret u
                        | None => raise (KeyError pf)
                        end
              end in
  let* filename := fetch url in
  let* targetfolder := make_target pf targetfolder in
  dispatch pf filename targetfolder.

End Downloader.

(** ** A host to run the code on

    A POSIX host with a scripted tool chain: [ar] splits a Debian archive,
    [tar] unpacks what it is pointed at, [pkgutil] expands an installer
    package, [msiexec] performs an administrative install.  Any tool
    whose input file is missing exits with status 1. *)

Module Host.

(** Directories are made where there is none; a file is stored unless a
    directory has its name. *)
Definition put_dirs (ds : list string) (f : gmap string node) : gmap string node :=
  fold_left (fun acc d => if is_dir (acc !! d) then acc else <[d := Dir 0x41ed]> acc) ds f.

Definition put_files (fl : list (string * string)) (f : gmap string node)
  : gmap string node :=
  fold_left (fun acc kv => if is_dir (acc !! kv.1) then acc
                           else <[kv.1 := File kv.2 0x81a4]> acc) fl f.

(** What a command does: unpack directories and files, fail, or not be
    installed at all. *)
Inductive effect :=
| Unpacks (ds : list string) (fl : list (string * string))
| Fails
| Unknown.

Definition script (cmd : list string) (wd : string) (f : gmap string node) : effect :=
  match cmd with
  | ["ar"; "x"; deb] =>
      if is_file (f !! Path.abspath wd deb)
      then Unpacks [] [(Path.join wd "data.tar.gz", "data")]
      else Fails
  | ["tar"; "xzf"; "data.tar.gz"] =>
      if is_file (f !! Path.join wd "data.tar.gz")
      then Unpacks
             [Path.joins wd ["usr"]; Path.joins wd ["usr"; "bin"];
              Path.joins wd ["usr"; "share"]; Path.joins wd ["usr"; "share"; "doc"];
              Path.joins wd ["usr"; "share"; "doc"; "pandoc"]]
             [(Path.joins wd ["usr"; "bin"; "pandoc"], "ELF pandoc");
              (Path.joins wd ["usr"; "bin"; "pandoc-citeproc"], "ELF citeproc");
              (Path.joins wd ["usr"; "share"; "doc"; "pandoc"; "copyright"], "GPL")]
      else Fails
  | ["pkgutil"; "--expand"; pkg; out] =>
      if is_file (f !! Path.abspath wd pkg)
      then Unpacks [out; Path.joins out ["pandoc.pkg"]]
             [(Path.joins out ["pandoc.pkg"; "Payload"], "payload")]
      else Fails
  | ["tar"; "xvf"; payload; "-C"; out] =>
      if is_file (f !! Path.abspath wd payload)
      then Unpacks
             [Path.joins out ["usr"]; Path.joins out ["usr"; "local"];
              Path.joins out ["usr"; "local"; "bin"];
              Path.joins out ["usr"; "local"; "share"];
              Path.joins out ["usr"; "local"; "share"; "doc"];
              Path.joins out ["usr"; "local"; "share"; "doc"; "pandoc"]]
             [(Path.joins out ["usr"; "local"; "bin"; "pandoc"], "Mach-O pandoc");
              (Path.joins out ["usr"; "local"; "bin"; "pandoc-citeproc"], "Mach-O citeproc");
              (Path.joins out ["usr"; "local"; "share"; "doc"; "pandoc"; "COPYRIGHT"],
               "GPL")]
      else Fails
  | ["msiexec"; "/a"; msi; "/qb"; target] =>
      let out := String.substring 10 (String.length target - 10) target in
      if is_file (f !! Path.abspath wd msi)
      then Unpacks [Path.joins out ["Pandoc"]]
             [(Path.joins out ["Pandoc"; "pandoc.exe"], "PE pandoc");
              (Path.joins out ["Pandoc"; "pandoc-citeproc.exe"], "PE citeproc");
              (Path.joins out ["Pandoc"; "COPYRIGHT.txt"], "GPL")]
      else Fails
  | _ => Unknown
  end.

Definition tools (cmd : list string) (wd : string) (f : gmap string node)
  : exit * gmap string node :=
  match script cmd wd f with
  | Unpacks ds fl => (Exited 0, put_files fl (put_dirs ds f))
  | Fails => (Exited 1, f)
  | Unknown => (NotFound, f)
  end.

(** A server that has every file and answers each URL with its own text. *)
Definition server (url : string) : option string := Some ("body of " +:+ url).

Definition env (platform arch : string) : Env := {|
  sys_platform := platform;
  architecture := arch;
  home := "/home/u";
  umask := 0x12;
  os_path := posixpath;
  tmp_names := ["/tmp/tmpa"; "/tmp/tmpb"];
  remote := server;
  cut := fun _ => None;
  denied := fun _ => false;
  tool := tools;
|}.

(** The same host with the user's [~/bin] on a read-only mount. *)
Definition locked (platform arch : string) : Env := {|
  sys_platform := platform;
  architecture := arch;
  home := "/home/u";
  umask := 0x12;
  os_path := posixpath;
  tmp_names := ["/tmp/tmpa"; "/tmp/tmpb"];
  remote := server;
  cut := fun _ => None;
  denied := String.eqb "/home/u/bin";
  tool := tools;
|}.

(** The same host with the network down. *)
Definition offline (platform arch : string) : Env := {|
  sys_platform := platform;
  architecture := arch;
  home := "/home/u";
  umask := 0x12;
  os_path := posixpath;
  tmp_names := ["/tmp/tmpa"; "/tmp/tmpb"];
  remote := fun _ => None;
  cut := fun _ => None;
  denied := fun _ => false;
  tool := tools;
|}.

(** The same host on a line that drops after [n] bytes. *)
Definition flaky (n : nat) (platform arch : string) : Env := {|
  sys_platform := platform;
  architecture := arch;
  home := "/home/u";
  umask := 0x12;
  os_path := posixpath;
  tmp_names := ["/tmp/tmpa"; "/tmp/tmpb"];
  remote := server;
  cut := fun _ => Some n;
  denied := fun _ => false;
  tool := tools;
|}.

(** A fresh account: a home directory, a download directory, [/tmp]. *)
Definition disk : gmap string node :=
  put_dirs ["/"; "/tmp"; "/home"; "/home/u"; "/home/u/dl"] ∅.

Definition world : World := {|
  fs := disk;
  cwd := "/home/u/dl";
  calls := [];
  stdout := [];
|}.

(** The same account with an archive already downloaded and a target
    folder already there. *)
Definition world_with (archive : string) : World := {|
  fs := put_files [("/home/u/dl/" +:+ archive, "archive")]
          (put_dirs ["/home/u/opt"] disk);
  cwd := "/home/u/dl";
  calls := [];
  stdout := [];
|}.

End Host.

(** ** What the arguments of [download_pandoc] stand for *)

(** The URL fetched: the caller's, or the one of the platform. *)
Definition chosen_url (url : option string) (pandoc_urls : gmap string string)
    (pf : string) : option string :=
  match url with
  | Some u => Some u
  | None => pandoc_urls !! pf
  end.

(** The folder installed into, before [~] is expanded. *)
Definition chosen_target (targetfolder : option string) (pf : string) : option string :=
  match targetfolder with
  | Some t => Some t
  | None => DEFAULT_TARGET_FOLDER !! pf
  end.

(** The last segment of a URL: the name of the archive on disk. *)
Definition basename (url : string) : string := Str.last (Str.split Str.slash url).

(** [keeps_dirs m]: every directory there before [m] runs is there after. *)
Definition keeps_dirs {A} (m : M A) : Prop :=
  ∀ w p, is_dir (fs w !! p) = true → is_dir (fs (m w).2 !! p) = true.

(** An external tool that removes no directory. *)
Definition tools_keep_dirs (env : Env) : Prop :=
  ∀ cmd wd f p, is_dir (f !! p) = true → is_dir ((tool env cmd wd f).2 !! p) = true.

(** A path that [os.path.abspath] returns as it is, wherever the process
    stands: absolute and normalised. *)
Definition settled (env : Env) (p : string) : Prop :=
  p ≠ "" ∧ ∀ wd, op_abspath (os_path env) wd p = p.

(** [keeps_calls m]: running [m] hands no URL to [urlopen]. *)
Definition keeps_calls {A} (m : M A) : Prop := ∀ w, calls (m w).2 = calls w.

(** The [try] block of [_handle_linux], given the scratch directory and
    the absolute name of the archive. *)
Definition linux_body (env : Env) (tempfolder filename targetfolder : string) : M unit :=
  os_chdir env tempfolder >>>
  subprocess_check_call env ["ar"; "x"; filename] >>>
  subprocess_check_call env ["tar"; "xzf"; "data.tar.gz"] >>>
  for_each ["pandoc"; "pandoc-citeproc"]
    (fun exe =>
       let src := os_path_join env tempfolder ["usr"; "bin"; exe] in
       let dst := os_path_join env targetfolder [exe] in
       print ("* Copying " +:+ exe +:+ " to " +:+ targetfolder +:+ " ...") >>>
       shutil_copyfile env src dst >>>
       _make_executable env dst) >>>
  let src := os_path_join env tempfolder ["usr"; "share"; "doc"; "pandoc"; "copyright"] in
  let dst := os_path_join env targetfolder ["copyright.pandoc"] in
  print ("* Copying copyright to " +:+ targetfolder +:+ " ...") >>>
  shutil_copyfile env src dst.

(** [keeps_cwd m]: running [m] leaves the working directory where it was. *)
Definition keeps_cwd {A} (m : M A) : Prop := ∀ w, cwd (m w).2 = cwd w.

(** [only_makes_dirs m]: running [m] leaves the working directory and
    everything on disk as they were; what it adds are directories. *)
Definition only_makes_dirs {A} (m : M A) : Prop :=
  ∀ w, cwd (m w).2 = cwd w
       ∧ (∀ p n, fs w !! p = Some n → fs (m w).2 !! p = Some n)
       ∧ (∀ p, fs w !! p = None → fs (m w).2 !! p = None ∨ is_dir (fs (m w).2 !! p) = true).

(** [raises_only Q m]: whatever [m] raises satisfies [Q]. *)
Definition raises_only {A} (Q : exn → Prop) (m : M A) : Prop :=
  ∀ w, match (m w).1 with
       | Raise e => Q e
       | Ok _ => True
       end.

Definition is_oserror (e : exn) : Prop :=
  match e with OSError _ _ => True | _ => False end.

(** The same host under another [sys.platform]. *)
Definition with_platform (pf : string) (env : Env) : Env :=
  mkEnv pf (architecture env) (home env) (umask env) (os_path env) (tmp_names env)
    (remote env) (cut env) (denied env) (tool env).

(** The same host under another [platform.architecture()]. *)
Definition with_architecture (arch : string) (env : Env) : Env :=
  mkEnv (sys_platform env) arch (home env) (umask env) (os_path env) (tmp_names env)
    (remote env) (cut env) (denied env) (tool env).

(** [s] holds a ["/"]. *)
Fixpoint has_slash (s : string) : bool :=
  match s with
  | EmptyString => false
  | String a rest => Ascii.eqb a Str.slash || has_slash rest
  end.

(** * Properties *)

(** ** Strings and paths *)

Lemma app_assoc_str (a b c : string) : (a +:+ b) +:+ c = a +:+ (b +:+ c).
Proof.
  induction a as [|x a IH]; [reflexivity |].
  change (String x ((a +:+ b) +:+ c) = String x (a +:+ b +:+ c)).
  now rewrite IH.
Qed.

Example join_usr_bin :
  Path.joins "/tmp/tmpa" ["usr"; "bin"; "pandoc"] = "/tmp/tmpa/usr/bin/pandoc".
Proof. reflexivity. Qed.

Example abspath_relative :
  Path.abspath "/home/u/dl" "../x/./pandoc.deb" = "/home/u/x/pandoc.deb".
Proof. reflexivity. Qed.

Example expanduser_bin : Path.expanduser "/home/u" "~/bin" = "/home/u/bin".
Proof. reflexivity. Qed.

Example parent_of_file : Path.parent "/home/u/bin/pandoc" = "/home/u/bin".
Proof. reflexivity. Qed.

Example ancestors_of_target :
  Path.ancestors "/home/u/Applications/pandoc"
  = ["/home"; "/home/u"; "/home/u/Applications"].
Proof. reflexivity. Qed.

Example split_last_segment :
  Str.last (Str.split Str.slash "https://h/a/b.deb") = "b.deb".
Proof. reflexivity. Qed.

(** ** The URL resolver *)

Lemma urls_win32 (V : string) :
  _get_pandoc_urls V !! "win32"
  = Some ((release_base +:+ V +:+ "/pandoc-" +:+ V) +:+ "-windows.msi").
Proof. unfold _get_pandoc_urls. now rewrite lookup_insert_eq. Qed.

Lemma urls_linux (V : string) :
  _get_pandoc_urls V !! "linux"
  = Some ((release_base +:+ V +:+ "/pandoc-" +:+ V) +:+ "-1" +:+ "-amd64.deb").
Proof.
  unfold _get_pandoc_urls.
  rewrite lookup_insert_ne by discriminate. now rewrite lookup_insert_eq.
Qed.

Lemma urls_darwin (V : string) :
  _get_pandoc_urls V !! "darwin"
  = Some ((release_base +:+ V +:+ "/pandoc-" +:+ V) +:+ "-osx.pkg").
Proof.
  unfold _get_pandoc_urls.
  do 2 (rewrite lookup_insert_ne by discriminate). now rewrite lookup_insert_eq.
Qed.

Lemma urls_other (V pf : string) :
  pf ≠ "win32" → pf ≠ "linux" → pf ≠ "darwin" → _get_pandoc_urls V !! pf = None.
Proof.
  intros Hw Hl Hd. unfold _get_pandoc_urls.
  do 3 (rewrite lookup_insert_ne by congruence). apply lookup_empty.
Qed.

(** C1. For every version [V] the resolver maps each of the three
    platforms to a URL that starts with the release base path, carries
    [V] as its directory segment and again inside its file name
    [pandoc-V...], and ends with the suffix of the platform: [.msi] for
    win32, [-1-amd64.deb] for linux, [.pkg] for darwin.  For ["1.19.1"]
    the linux URL is the one the specification spells out. *)
Theorem get_pandoc_urls_shape (V : string) :
  (∃ mid, _get_pandoc_urls V !! "win32"
          = Some (release_base +:+ V +:+ "/" +:+ "pandoc-" +:+ V +:+ mid +:+ ".msi"))
  ∧ _get_pandoc_urls V !! "linux"
    = Some (release_base +:+ V +:+ "/" +:+ "pandoc-" +:+ V +:+ "-1-amd64.deb")
  ∧ (∃ mid, _get_pandoc_urls V !! "darwin"
            = Some (release_base +:+ V +:+ "/" +:+ "pandoc-" +:+ V +:+ mid +:+ ".pkg"))
  ∧ _get_pandoc_urls "1.19.1" !! "linux"
    = Some "https://github.com/jgm/pandoc/releases/download/1.19.1/pandoc-1.19.1-1-amd64.deb".
Proof.
  repeat split.
  - exists "-windows". rewrite urls_win32. f_equal.
    now rewrite !app_assoc_str.
  - rewrite urls_linux. f_equal. now rewrite !app_assoc_str.
  - exists "-osx". rewrite urls_darwin. f_equal.
    now rewrite !app_assoc_str.
Qed.

(** ** Permission bits *)

(** The bits of [0o444]: read for owner (8), group (5) and other (2). *)
Lemma o444_bits (j : Z) :
  Z.testbit o444 j = (Z.eqb j 2 || Z.eqb j 5 || Z.eqb j 8)%bool.
Proof.
  destruct (Z_lt_dec j 0) as [Hneg | Hpos].
  - rewrite Z.testbit_neg_r by lia.
    destruct (Z.eqb_spec j 2), (Z.eqb_spec j 5), (Z.eqb_spec j 8); try lia; reflexivity.
  - destruct (Z_lt_dec j 9) as [Hlt | Hge].
    + assert (Hc : j = 0 ∨ j = 1 ∨ j = 2 ∨ j = 3 ∨ j = 4 ∨ j = 5 ∨ j = 6 ∨ j = 7 ∨ j = 8)
        by lia.
      destruct Hc as [-> | [-> | [-> | [-> | [-> | [-> | [-> | [-> | ->]]]]]]]];
        reflexivity.
    + rewrite Z.bits_above_log2; [| unfold o444; lia | change (Z.log2 o444) with 8; lia].
      destruct (Z.eqb_spec j 2), (Z.eqb_spec j 5), (Z.eqb_spec j 8); try lia; reflexivity.
Qed.

(** The bits of [0o7777]: the low twelve. *)
Lemma o7777_bits (j : Z) : 0 ≤ j → Z.testbit o7777 j = Z.ltb j 12.
Proof.
  intros Hj. change o7777 with (Z.ones 12).
  destruct (Z.ltb_spec j 12).
  - apply Z.ones_spec_low. lia.
  - apply Z.ones_spec_high. lia.
Qed.

(** Bit by bit, what [mode |= (mode & 0o444) >> 2] computes. *)
Lemma copy_read_to_execute_bits (m i : Z) :
  Z.testbit (Z.lor m (Z.shiftr (Z.land m o444) 2)) i
  = (Z.testbit m i
     || (Z.eqb i 0 || Z.eqb i 3 || Z.eqb i 6) && Z.testbit m (i + 2))%bool.
Proof.
  rewrite Z.lor_spec.
  destruct (Z_lt_dec i 0) as [Hneg | Hpos].
  - rewrite !(Z.testbit_neg_r _ i) by lia.
    destruct (Z.eqb_spec i 0), (Z.eqb_spec i 3), (Z.eqb_spec i 6); try lia; reflexivity.
  - rewrite Z.shiftr_spec by lia. rewrite Z.land_spec, o444_bits.
    destruct (Z.eqb_spec i 0), (Z.eqb_spec i 3), (Z.eqb_spec i 6),
      (Z.eqb_spec (i + 2) 2), (Z.eqb_spec (i + 2) 5), (Z.eqb_spec (i + 2) 8);
      try lia; destruct (Z.testbit m i), (Z.testbit m (i + 2)); reflexivity.
Qed.

(** [chmod] with that mode stores exactly that mode: the file type bits of
    [st_mode] are already in it and nothing above the permission bits is
    touched. *)
Lemma chmod_keeps_computed_mode (m : Z) :
  let m' := Z.lor m (Z.shiftr (Z.land m o444) 2) in
  Z.lor (Z.land m (Z.lnot o7777)) (Z.land m' o7777) = m'.
Proof.
  intros m'. apply Z.bits_inj'. intros i Hi.
  rewrite Z.lor_spec, !Z.land_spec, Z.lnot_spec, o7777_bits by lia.
  subst m'. rewrite copy_read_to_execute_bits.
  destruct (Z.ltb_spec i 12), (Z.eqb_spec i 0), (Z.eqb_spec i 3), (Z.eqb_spec i 6);
    try lia; destruct (Z.testbit m i), (Z.testbit m (i + 2)); reflexivity.
Qed.

(** C7. On a file of mode [m], [_make_executable] stores the mode
    [m | ((m & 0o444) >> 2)] and leaves the contents alone; in the new
    mode owner, group and other each have execute wherever they had read,
    every bit that was set stays set, and no bit other than the three
    execute bits differs from [m]. *)
Theorem make_executable_copies_read_to_execute
    (env : Env) (path d : string) (m : Z) (w : World) :
  path ≠ "" →
  fs w !! op_abspath (os_path env) (cwd w) path = Some (File d m) →
  let m' := Z.lor m (Z.shiftr (Z.land m o444) 2) in
  _make_executable env path w
  = (Ok tt,
     set_fs (<[op_abspath (os_path env) (cwd w) path := File d m']> (fs w))
       (add_line ("* Making " +:+ path +:+ " executeable...") w))
  ∧ (Z.testbit m 8 = true → Z.testbit m' 6 = true)
  ∧ (Z.testbit m 5 = true → Z.testbit m' 3 = true)
  ∧ (Z.testbit m 2 = true → Z.testbit m' 0 = true)
  ∧ (∀ i, Z.testbit m i = true → Z.testbit m' i = true)
  ∧ (∀ i, i ≠ 0 → i ≠ 3 → i ≠ 6 → Z.testbit m' i = Z.testbit m i).
Proof.
  intros Hpath Hfile m'.
  assert (Hne : String.eqb path "" = false) by now apply String.eqb_neq.
  split; [| repeat split].
  - unfold _make_executable, os_stat_st_mode, os_chmod, resolve, print, modify, bind.
    rewrite Hne, Hfile. cbn [st_mode set_mode cwd fs add_line].
    rewrite Hfile. cbn [st_mode set_mode].
    now rewrite chmod_keeps_computed_mode.
  - intros H. subst m'. rewrite copy_read_to_execute_bits.
    change (Z.testbit m (6 + 2)) with (Z.testbit m 8). rewrite H. apply orb_true_r.
  - intros H. subst m'. rewrite copy_read_to_execute_bits.
    change (Z.testbit m (3 + 2)) with (Z.testbit m 5). rewrite H. apply orb_true_r.
  - intros H. subst m'. rewrite copy_read_to_execute_bits.
    change (Z.testbit m (0 + 2)) with (Z.testbit m 2). rewrite H. apply orb_true_r.
  - intros i H. subst m'. rewrite copy_read_to_execute_bits. now rewrite H.
  - intros i H0 H3 H6. subst m'. rewrite copy_read_to_execute_bits.
    destruct (Z.eqb_spec i 0), (Z.eqb_spec i 3), (Z.eqb_spec i 6); try lia.
    apply orb_false_r.
Qed.

(** ** What never touches the download channel

    Everything but [urlopen] itself keeps the channel as it is, external
    tools included: they act on the file system, not on the interpreter. *)

Create HintDb frame discriminated.

Section Frame.

Context (env : Env).

Lemma keeps_ret {A} (a : A) : keeps_calls (ret a).
Proof. now intros w. Qed.

Lemma keeps_raise {A} (e : exn) : keeps_calls (@raise A e).
Proof. now intros w. Qed.

Lemma keeps_bind {A B} (m : M A) (k : A → M B) :
  keeps_calls m → (∀ a, keeps_calls (k a)) → keeps_calls (bind m k).
Proof.
  intros Hm Hk w. unfold bind. specialize (Hm w).
  destruct (m w) as [[a | e] w1]; cbn in *; [| assumption].
  now rewrite Hk.
Qed.

Lemma keeps_try_finally {A} (body : M A) (final : M unit) :
  keeps_calls body → keeps_calls final → keeps_calls (try_finally body final).
Proof.
  intros Hb Hf w. unfold try_finally. specialize (Hb w).
  destruct (body w) as [r w1]. specialize (Hf w1).
  destruct (final w1) as [[u | e] w2]; cbn in *; congruence.
Qed.

Lemma keeps_try_except (body handler : M unit) :
  keeps_calls body → keeps_calls handler →
  keeps_calls (try_except_OSError body handler).
Proof.
  intros Hb Hh w. unfold try_except_OSError. specialize (Hb w).
  destruct (body w) as [[u | e] w1]; cbn in *; [assumption |].
  destruct e; cbn; try assumption. now rewrite Hh.
Qed.

Lemma keeps_for_each {A} (l : list A) (body : A → M unit) :
  (∀ a, keeps_calls (body a)) → keeps_calls (for_each l body).
Proof.
  intros Hb. induction l as [| x l IH]; cbn [for_each].
  - apply keeps_ret.
  - apply keeps_bind; auto.
Qed.

Ltac by_cases :=
  let w := fresh "w" in
  intros w; repeat (case_match; try reflexivity); reflexivity.

Lemma keeps_resolve p : keeps_calls (resolve env p).
Proof. unfold resolve. by_cases. Qed.

Lemma keeps_print l : keeps_calls (print l).
Proof. now intros w. Qed.

Lemma keeps_getcwd : keeps_calls (os_getcwd).
Proof. unfold os_getcwd. by_cases. Qed.

Lemma keeps_abspath p : keeps_calls (os_path_abspath env p).
Proof. now intros w. Qed.

Lemma keeps_expanduser p : keeps_calls (os_path_expanduser env p).
Proof. now intros w. Qed.

Lemma keeps_isfile p : keeps_calls (os_path_isfile env p).
Proof. unfold os_path_isfile. by_cases. Qed.

Lemma keeps_mkdir_at r shown mode : keeps_calls (mkdir_at env r shown mode).
Proof. unfold mkdir_at. by_cases. Qed.

Hint Resolve keeps_ret keeps_raise keeps_resolve keeps_print keeps_getcwd
  keeps_abspath keeps_expanduser keeps_isfile keeps_mkdir_at : frame.

Ltac frame :=
  repeat match goal with
    | |- keeps_calls (bind _ _) => apply keeps_bind; [| intros ?]
    | |- keeps_calls (try_finally _ _) => apply keeps_try_finally
    | |- keeps_calls (try_except_OSError _ _) => apply keeps_try_except
    | |- keeps_calls (for_each _ _) => apply keeps_for_each; intros ?
    | |- keeps_calls (if ?b then _ else _) => destruct b
    | |- keeps_calls (match ?o with Some _ => _ | None => _ end) => destruct o
    | |- _ => solve [auto with frame]
    | |- _ => by_cases
    end.

Lemma keeps_chdir p : keeps_calls (os_chdir env p).
Proof. unfold os_chdir. frame. Qed.

Lemma keeps_makedirs p : keeps_calls (os_makedirs env p).
Proof.
  unfold os_makedirs. apply keeps_bind; [auto with frame | intros r].
  apply keeps_bind; [| auto with frame].
  apply keeps_for_each. intros a w.
  destruct (fs w !! a); [reflexivity | apply keeps_mkdir_at].
Qed.

Lemma keeps_mkdtemp_from names : keeps_calls (mkdtemp_from env names).
Proof.
  induction names as [| n rest IH]; cbn [mkdtemp_from]; [apply keeps_raise |].
  intros w. pose proof (keeps_mkdir_at n n o700 w) as Hm.
  destruct (mkdir_at env n n o700 w) as [[u | e] w1]; cbn in *; [assumption |].
  destruct e; cbn; try assumption.
  destruct code; cbn; try assumption. now rewrite IH.
Qed.

Lemma keeps_mkdtemp : keeps_calls (tempfile_mkdtemp env).
Proof. apply keeps_mkdtemp_from. Qed.

Lemma keeps_write_file p data : keeps_calls (write_file env p data).
Proof. unfold write_file. frame. Qed.

Lemma keeps_read_file p : keeps_calls (read_file env p).
Proof. unfold read_file. frame. Qed.

Lemma keeps_open_wb p : keeps_calls (open_wb env p).
Proof.
  unfold open_wb. apply keeps_bind; [apply keeps_write_file | intros _].
  apply keeps_resolve.
Qed.

Lemma keeps_copyfileobj resp f : keeps_calls (shutil_copyfileobj resp f).
Proof. unfold shutil_copyfileobj. by_cases. Qed.

Hint Resolve keeps_chdir keeps_makedirs keeps_mkdtemp keeps_write_file
  keeps_read_file keeps_open_wb keeps_copyfileobj : frame.

Lemma keeps_copyfile src dst : keeps_calls (shutil_copyfile env src dst).
Proof. unfold shutil_copyfile. frame. Qed.

Lemma keeps_stat p : keeps_calls (os_stat_st_mode env p).
Proof. unfold os_stat_st_mode. frame. Qed.

Lemma keeps_chmod p mode : keeps_calls (os_chmod env p mode).
Proof. unfold os_chmod. frame. Qed.

Lemma keeps_rmtree p : keeps_calls (shutil_rmtree env p).
Proof. unfold shutil_rmtree. frame. Qed.

Lemma keeps_check_call cmd : keeps_calls (subprocess_check_call env cmd).
Proof. unfold subprocess_check_call. by_cases. Qed.

Hint Resolve keeps_copyfile keeps_stat keeps_chmod keeps_rmtree
  keeps_check_call : frame.

Lemma keeps_make_executable p : keeps_calls (_make_executable env p).
Proof. unfold _make_executable. frame. Qed.

Hint Resolve keeps_make_executable : frame.

Lemma keeps_handle_linux f t : keeps_calls (_handle_linux env f t).
Proof. unfold _handle_linux. frame. Qed.

Lemma keeps_handle_darwin f t : keeps_calls (_handle_darwin env f t).
Proof. unfold _handle_darwin. frame. Qed.

Lemma keeps_handle_win32 f t : keeps_calls (_handle_win32 env f t).
Proof. unfold _handle_win32. frame. Qed.

Lemma keeps_dispatch pf f t : keeps_calls (dispatch env pf f t).
Proof.
  unfold dispatch, globals_get.
  repeat case_match; simplify_eq;
    auto using keeps_handle_linux, keeps_handle_darwin, keeps_handle_win32, keeps_raise.
Qed.

Lemma keeps_make_target pf t : keeps_calls (make_target env pf t).
Proof. unfold make_target. frame. Qed.

Lemma keeps_platform_key urls : keeps_calls (platform_key env urls).
Proof. unfold platform_key. frame. Qed.

End Frame.

(** ** [download_pandoc], step by step *)

Section Download.

Context (env : Env).

Lemma platform_key_world urls w r w' :
  platform_key env urls w = (r, w') → w' = w.
Proof.
  unfold platform_key, bind, ret, raise. intros H.
  repeat case_match; simplify_eq; reflexivity.
Qed.

Lemma startswith_linux_linux : Str.startswith "linux" "linux" = true.
Proof. reflexivity. Qed.

(** A key the code does not recognise stops it at once. *)
Lemma unsupported_platform_stops url tf ver w :
  Str.startswith "linux" (sys_platform env) = false →
  sys_platform env ≠ "win32" →
  sys_platform env ≠ "darwin" →
  download_pandoc env url tf ver w
  = (Raise (RuntimeError "Can't handle your platform (only Linux, Mac OS X, Windows)."), w).
Proof.
  intros Hl Hw Hd.
  assert (Hn : sys_platform env ≠ "linux").
  { intros E. rewrite E in Hl. discriminate. }
  unfold download_pandoc, platform_key, bind. rewrite Hl. cbn [ret].
  now rewrite urls_other.
Qed.

(** On a recognised platform the rest of the function is what runs. *)
Lemma download_pandoc_supported url tf ver w pf u :
  platform_key env (_get_pandoc_urls (default "1.19.1" ver)) w = (Ok pf, w) →
  chosen_url url (_get_pandoc_urls (default "1.19.1" ver)) pf = Some u →
  download_pandoc env url tf ver w
  = (let* filename := fetch env u in
     let* targetfolder := make_target env pf tf in
     dispatch env pf filename targetfolder) w.
Proof.
  intros Hpk Hu. unfold download_pandoc.
  change (match ver with Some v => v | None => "1.19.1" end) with (default "1.19.1" ver).
  unfold bind at 1. rewrite Hpk. unfold bind at 1.
  destruct url as [x |]; cbn in Hu.
  - now inversion Hu.
  - now rewrite Hu.
Qed.

Lemma calls_bind_keeps {A B} (m : M A) (k : A → M B) w :
  (∀ a, keeps_calls (k a)) → calls (bind m k w).2 = calls (m w).2.
Proof.
  intros Hk. unfold bind. destruct (m w) as [[a | e] w1]; cbn; [apply Hk | reflexivity].
Qed.

(** *** The platform check *)

(** C5, as the code has it. On a platform key that is neither [win32] nor
    [darwin] and does not start with [linux], [download_pandoc] raises the
    unsupported-platform [RuntimeError] and leaves the world as it found
    it: nothing downloaded, nothing written, nothing printed. *)
Theorem unrecognised_platform_fails_fast
    (url tf ver : option string) (w : World) :
  Str.startswith "linux" (sys_platform env) = false →
  sys_platform env ≠ "win32" →
  sys_platform env ≠ "darwin" →
  download_pandoc env url tf ver w
  = (Raise (RuntimeError "Can't handle your platform (only Linux, Mac OS X, Windows)."), w)
  ∧ calls (download_pandoc env url tf ver w).2 = calls w
  ∧ fs (download_pandoc env url tf ver w).2 = fs w.
Proof.
  intros Hl Hw Hd. rewrite unsupported_platform_stops by assumption. now repeat split.
Qed.

(** C6. On a Linux platform (a key that starts with [linux]) whose
    architecture is not ["64bit"], [download_pandoc] raises
    [RuntimeError] and leaves the world as it found it: no download is
    attempted. *)
Theorem linux_not_64bit_fails_fast
    (url tf ver : option string) (w : World) :
  Str.startswith "linux" (sys_platform env) = true →
  architecture env ≠ "64bit" →
  download_pandoc env url tf ver w
  = (Raise (RuntimeError "Linux pandoc is only compiled for 64bit."), w)
  ∧ calls (download_pandoc env url tf ver w).2 = calls w.
Proof.
  intros Hl Ha.
  assert (E : download_pandoc env url tf ver w
              = (Raise (RuntimeError "Linux pandoc is only compiled for 64bit."), w)).
  { unfold download_pandoc, platform_key, bind. rewrite Hl.
    apply String.eqb_neq in Ha. now rewrite Ha. }
  now rewrite E.
Qed.

(** C9. A URL passed by the caller does not get past the platform check:
    on an unsupported platform key [download_pandoc (Some u)] raises the
    unsupported-platform error, and [u] has not reached the download
    channel. *)
Theorem explicit_url_does_not_bypass_platform_check
    (u : string) (tf ver : option string) (w : World) :
  Str.startswith "linux" (sys_platform env) = false →
  sys_platform env ≠ "win32" →
  sys_platform env ≠ "darwin" →
  download_pandoc env (Some u) tf ver w
  = (Raise (RuntimeError "Can't handle your platform (only Linux, Mac OS X, Windows)."), w)
  ∧ calls (download_pandoc env (Some u) tf ver w).2 = calls w.
Proof.
  intros Hl Hw Hd. now rewrite unsupported_platform_stops by assumption.
Qed.

(** *** The download *)

Lemma fetch_present u w :
  os_path_isfile env (basename u) w = (Ok true, w) →
  fetch env u w
  = (Ok (basename u), add_line ("* Using already downloaded file " +:+ basename u) w).
Proof.
  intros H. unfold fetch, bind. fold (basename u). now rewrite H.
Qed.

Lemma fetch_absent u w :
  os_path_isfile env (basename u) w = (Ok false, w) →
  fetch env u w
  = match remote env u with
    | Some body =>
        ((let* out_file := open_wb env (basename u) in
          shutil_copyfileobj (mkResponse body (cut env u)) out_file) >>>
         ret (basename u))
          (add_call u (add_line ("* Downloading pandoc from " +:+ u +:+ " ...") w))
    | None =>
        (Raise (URLError u),
         add_call u (add_line ("* Downloading pandoc from " +:+ u +:+ " ...") w))
    end.
Proof.
  intros H. unfold fetch, bind at 1. fold (basename u). rewrite H.
  unfold urlopen, print, modify, bind, ret, raise.
  destruct (remote env u) as [body |]; [| reflexivity].
  destruct (open_wb env (basename u) _) as [[f | e] w1]; [| reflexivity].
  now destruct (shutil_copyfileobj _ f w1) as [[[] | e] w2].
Qed.

Lemma fetch_calls_absent u w :
  os_path_isfile env (basename u) w = (Ok false, w) →
  calls (fetch env u w).2 = calls w ++ [u].
Proof.
  intros H. rewrite fetch_absent by assumption.
  destruct (remote env u) as [body |]; [| reflexivity].
  rewrite calls_bind_keeps by (intros; apply keeps_ret).
  rewrite keeps_bind; [reflexivity | apply keeps_open_wb |].
  intros f. apply keeps_copyfileobj.
Qed.

(** Where a new file can be made, opening it and copying a response that
    comes in whole leaves the file holding the body. *)
Lemma response_stored p body w :
  p ≠ "" →
  fs w !! op_abspath (os_path env) (cwd w) p = None →
  is_dir (fs w !! op_parent (os_path env) (op_abspath (os_path env) (cwd w) p)) = true →
  denied env (op_abspath (os_path env) (cwd w) p) = false →
  (let* out_file := open_wb env p in
   shutil_copyfileobj (mkResponse body None) out_file) w
  = (Ok tt,
     set_fs (<[op_abspath (os_path env) (cwd w) p := File body (default_file_mode env)]>
               (fs w)) w).
Proof.
  intros Hne Hnone Hpar Hden. apply String.eqb_neq in Hne.
  unfold open_wb, write_file, resolve, shutil_copyfileobj, bind. rewrite Hne, Hnone.
  destruct (fs w !! op_parent _ _) as [[] |]; try discriminate.
  rewrite Hden. cbn [cwd fs set_fs r_cut r_body].
  rewrite lookup_insert_eq. cbn [fs set_fs]. now rewrite insert_insert_eq.
Qed.

(** C4. Let [u] be the URL [download_pandoc] settles on and [filename]
    its last segment.  If [filename] is a file in the working directory,
    the whole run hands nothing to the download channel and goes on with
    the file as it is.  Otherwise the run makes exactly one request, for
    [u]; and where the server answers, the transfer is not cut short and
    a file of that name can be made (no directory bears the name, the
    directory it goes to is there and writable), the run goes on with
    [filename] holding exactly the body of the response. *)
Theorem download_only_when_absent
    (url tf ver : option string) (w : World) (pf u : string) :
  platform_key env (_get_pandoc_urls (default "1.19.1" ver)) w = (Ok pf, w) →
  chosen_url url (_get_pandoc_urls (default "1.19.1" ver)) pf = Some u →
  let filename := basename u in
  let rest := fun name : string =>
                let* targetfolder := make_target env pf tf in
                dispatch env pf name targetfolder in
  let out := download_pandoc env url tf ver w in
  (os_path_isfile env filename w = (Ok true, w) →
     calls out.2 = calls w
     ∧ out = rest filename (add_line ("* Using already downloaded file " +:+ filename) w))
  ∧ (os_path_isfile env filename w = (Ok false, w) →
     let w0 := add_call u (add_line ("* Downloading pandoc from " +:+ u +:+ " ...") w) in
     let r := op_abspath (os_path env) (cwd w) filename in
     calls out.2 = calls w ++ [u]
     ∧ (∀ body,
          remote env u = Some body → cut env u = None →
          filename ≠ "" →
          is_dir (fs w !! r) = false →
          is_dir (fs w !! op_parent (os_path env) r) = true →
          denied env r = false →
          out = rest filename
                  (set_fs (<[r := File body (default_file_mode env)]> (fs w)) w0))).
Proof.
  intros Hpk Hu filename rest out.
  assert (Hout : out = (let* name := fetch env u in rest name) w)
    by (subst out; now apply download_pandoc_supported).
  assert (Hrest : ∀ name, keeps_calls (rest name)).
  { intros name. subst rest. apply keeps_bind; [apply keeps_make_target |].
    intros t. apply keeps_dispatch. }
  split.
  - intros Hin. rewrite Hout. split.
    + rewrite calls_bind_keeps by assumption. now rewrite fetch_present.
    + unfold bind at 1. now rewrite fetch_present.
  - intros Hnot w0 r. rewrite Hout. split.
    + rewrite calls_bind_keeps by assumption. now apply fetch_calls_absent.
    + intros body Hbody Hcut Hne Hnodir Hpar Hden.
      assert (Hnone : fs w !! r = None).
      { unfold os_path_isfile in Hnot. apply String.eqb_neq in Hne.
        fold filename in Hnot. rewrite Hne in Hnot. fold r in Hnot.
        destruct (fs w !! r) as [[] |]; [discriminate.. | reflexivity]. }
      unfold bind at 1. rewrite fetch_absent by assumption. rewrite Hbody, Hcut.
      fold filename. fold w0. unfold bind at 1.
      rewrite (response_stored filename body w0 Hne Hnone Hpar Hden).
      reflexivity.
Qed.

(** *** The target folder *)

(** Storing a file replaces no directory and removes nothing. *)
Lemma insert_file_preserves (fsys : gmap string node) (k data : string) (m : Z) :
  is_dir (fsys !! k) = false →
  (∀ p, is_dir (fsys !! p) = true → is_dir (<[k := File data m]> fsys !! p) = true)
  ∧ (∀ p, is_Some (fsys !! p) → is_Some (<[k := File data m]> fsys !! p)).
Proof.
  intros Hk. split; intros p Hp; destruct (decide (k = p)) as [-> | Hne].
  - congruence.
  - now rewrite lookup_insert_ne.
  - rewrite lookup_insert_eq. eauto.
  - now rewrite lookup_insert_ne.
Qed.

Lemma write_file_preserves p data w r w1 :
  write_file env p data w = (r, w1) →
  cwd w1 = cwd w
  ∧ (∀ q, is_dir (fs w !! q) = true → is_dir (fs w1 !! q) = true)
  ∧ (∀ q, is_Some (fs w !! q) → is_Some (fs w1 !! q)).
Proof.
  unfold write_file, resolve, bind. intros H.
  repeat case_match; simplify_eq; cbn [cwd fs set_fs];
    (split; [reflexivity |]);
    first [ now split
          | apply insert_file_preserves;
            match goal with E : fs _ !! _ = _ |- _ => now rewrite E end ].
Qed.

Lemma copyfileobj_preserves resp f w :
  cwd (shutil_copyfileobj resp f w).2 = cwd w
  ∧ (∀ q, is_dir (fs w !! q) = true → is_dir (fs (shutil_copyfileobj resp f w).2 !! q) = true)
  ∧ (∀ q, is_Some (fs w !! q) → is_Some (fs (shutil_copyfileobj resp f w).2 !! q)).
Proof.
  unfold shutil_copyfileobj.
  destruct (r_cut resp); cbn [snd]; destruct (fs w !! f) as [[d m | m] |] eqn:E;
    cbn [cwd fs set_fs]; (split; [reflexivity |]);
    first [ now split | apply insert_file_preserves; now rewrite E ].
Qed.

Lemma open_wb_preserves p w r w1 :
  open_wb env p w = (r, w1) →
  cwd w1 = cwd w
  ∧ (∀ q, is_dir (fs w !! q) = true → is_dir (fs w1 !! q) = true)
  ∧ (∀ q, is_Some (fs w !! q) → is_Some (fs w1 !! q)).
Proof.
  unfold open_wb, bind. intros H.
  destruct (write_file env p "" w) as [[[] | e] w'] eqn:Hw;
    apply write_file_preserves in Hw.
  - unfold resolve in H. destruct (String.eqb p ""); simplify_eq; exact Hw.
  - simplify_eq. exact Hw.
Qed.

Lemma open_then_copy_preserves p resp w :
  let out := (let* out_file := open_wb env p in shutil_copyfileobj resp out_file) w in
  cwd out.2 = cwd w
  ∧ (∀ q, is_dir (fs w !! q) = true → is_dir (fs out.2 !! q) = true)
  ∧ (∀ q, is_Some (fs w !! q) → is_Some (fs out.2 !! q)).
Proof.
  cbv zeta. unfold bind.
  destruct (open_wb env p w) as [[f | e] w1] eqn:Ho;
    apply open_wb_preserves in Ho as (Hc & Hd & Hs); cbn [snd]; [| auto].
  destruct (copyfileobj_preserves resp f w1) as (Hc' & Hd' & Hs').
  split; [congruence |].
  split; intros q Hq; [exact (Hd' q (Hd q Hq)) | exact (Hs' q (Hs q Hq))].
Qed.

(** The download leaves the working directory and every directory where
    they were, and removes nothing. *)
Lemma fetch_preserves u w r w1 :
  fetch env u w = (r, w1) →
  cwd w1 = cwd w
  ∧ (∀ p, is_dir (fs w !! p) = true → is_dir (fs w1 !! p) = true)
  ∧ (∀ p, is_Some (fs w !! p) → is_Some (fs w1 !! p)).
Proof.
  intros H.
  assert (Hb : ∃ b, os_path_isfile env (basename u) w = (Ok b, w)).
  { unfold os_path_isfile. destruct (String.eqb (basename u) ""); eauto. }
  destruct Hb as [[] Hb].
  - rewrite fetch_present in H by assumption. now simplify_eq.
  - rewrite fetch_absent in H by assumption.
    destruct (remote env u) as [body |]; [| now simplify_eq].
    unfold bind at 1 in H.
    match type of H with
    | context [bind ?m ?k ?w0] =>
        pose proof (open_then_copy_preserves (basename u) (mkResponse body (cut env u)) w0)
          as Hp;
        destruct (bind m k w0) as [[[] | e] w'] eqn:Hw
    end; unfold ret in H; simplify_eq; exact Hp.
Qed.

(** Walking through directories that are all there creates nothing. *)
Lemma makedirs_walk_existing (l : list string) w :
  Forall (λ a, is_Some (fs w !! a)) l →
  for_each l
    (λ a w, match fs w !! a with
            | Some _ => (Ok tt, w)
            | None => mkdir_at env a a (default_dir_mode env) w
            end) w
  = (Ok tt, w).
Proof.
  induction 1 as [| a l [n Ha] _ IH]; cbn [for_each]; [reflexivity |].
  unfold bind. now rewrite Ha.
Qed.

(** On a folder that is there, [os.makedirs] raises [FileExistsError] and
    has touched nothing. *)
Lemma makedirs_existing t w :
  t ≠ "" →
  is_Some (fs w !! op_abspath (os_path env) (cwd w) t) →
  Forall (λ a, is_Some (fs w !! a))
    (op_ancestors (os_path env) (op_abspath (os_path env) (cwd w) t)) →
  os_makedirs env t w = (Raise (OSError EEXIST t), w).
Proof.
  intros Hne [n Hn] Hanc. apply String.eqb_neq in Hne.
  unfold os_makedirs, resolve. unfold bind at 1. rewrite Hne.
  unfold bind. rewrite makedirs_walk_existing by assumption.
  unfold mkdir_at. now rewrite Hn.
Qed.

(** Whatever [OSError] creating the folder raises, the step ends
    normally, in the world the attempt left. *)
Lemma make_target_swallows pf tf t w e f w' :
  chosen_target tf pf = Some t →
  os_makedirs env (op_expanduser (os_path env) (home env) t) w = (Raise (OSError e f), w') →
  make_target env pf tf w = (Ok (op_expanduser (os_path env) (home env) t), w').
Proof.
  intros Ht Hm. unfold make_target.
  assert (E : (match tf with
               | Some t0 => ret t0
               | None => match DEFAULT_TARGET_FOLDER !! pf with
                         | Some t0 => ret t0
                         | None => raise (KeyError pf)
                         end
               end) = @ret string t).
  { destruct tf; cbn in Ht; [now inversion Ht | now rewrite Ht]. }
  rewrite E. cbv beta iota delta [bind ret os_path_expanduser try_except_OSError].
  now rewrite Hm.
Qed.

(** C8. When the target folder is already there (with the directories
    above it), creating it raises [FileExistsError], the error is
    swallowed and nothing has changed: the whole run is the download
    followed at once by the unpacker of the platform. *)
Theorem existing_target_folder_is_accepted
    (url tf ver : option string) (w : World) (pf u t : string) :
  platform_key env (_get_pandoc_urls (default "1.19.1" ver)) w = (Ok pf, w) →
  chosen_url url (_get_pandoc_urls (default "1.19.1" ver)) pf = Some u →
  chosen_target tf pf = Some t →
  let target := op_expanduser (os_path env) (home env) t in
  let r := op_abspath (os_path env) (cwd w) target in
  target ≠ "" →
  is_dir (fs w !! r) = true →
  Forall (λ a, is_Some (fs w !! a)) (op_ancestors (os_path env) r) →
  os_makedirs env target w = (Raise (OSError EEXIST target), w)
  ∧ make_target env pf tf w = (Ok target, w)
  ∧ download_pandoc env url tf ver w
    = (let* filename := fetch env u in dispatch env pf filename target) w.
Proof.
  intros Hpk Hu Ht target r Hne Hdir Hanc.
  assert (Hex : ∀ w1, cwd w1 = cwd w →
                  (∀ p, is_Some (fs w !! p) → is_Some (fs w1 !! p)) →
                  os_makedirs env target w1 = (Raise (OSError EEXIST target), w1)).
  { intros w1 Hc Hs. apply makedirs_existing; [assumption | |]; rewrite Hc; fold r.
    - apply Hs. destruct (fs w !! r) as [[] |]; try discriminate. eauto.
    - eapply Forall_impl; [exact Hanc |]. intros a Ha. now apply Hs. }
  split; [| split].
  - now apply Hex.
  - eapply make_target_swallows; [eassumption |]. now apply Hex.
  - rewrite (download_pandoc_supported _ _ _ _ _ _ Hpk Hu). unfold bind at 1 3.
    destruct (fetch env u w) as [[name | e] w1] eqn:Hf; [| reflexivity].
    destruct (fetch_preserves _ _ _ _ Hf) as (Hc & _ & Hs).
    unfold bind. erewrite make_target_swallows; [reflexivity | eassumption |].
    now apply Hex.
Qed.

(** C10. Whatever [OSError] creating the target folder raises, with
    whatever error code, the step ends normally and the run goes on to
    the unpacker of the platform, in the world the attempt left. *)
Theorem makedirs_oserror_is_suppressed
    (url tf ver : option string) (w w1 w2 : World) (pf u t filename f : string)
    (e : errno) :
  platform_key env (_get_pandoc_urls (default "1.19.1" ver)) w = (Ok pf, w) →
  chosen_url url (_get_pandoc_urls (default "1.19.1" ver)) pf = Some u →
  chosen_target tf pf = Some t →
  fetch env u w = (Ok filename, w1) →
  let target := op_expanduser (os_path env) (home env) t in
  os_makedirs env target w1 = (Raise (OSError e f), w2) →
  make_target env pf tf w1 = (Ok target, w2)
  ∧ download_pandoc env url tf ver w = dispatch env pf filename target w2.
Proof.
  intros Hpk Hu Ht Hf target Hm.
  assert (Hmt : make_target env pf tf w1 = (Ok target, w2))
    by (eapply make_target_swallows; eassumption).
  split; [assumption |].
  rewrite (download_pandoc_supported _ _ _ _ _ _ Hpk Hu).
  unfold bind. now rewrite Hf, Hmt.
Qed.

End Download.

(** ** The scratch directory

    Of the three unpackers only the Linux one removes its scratch
    directory under [try]/[finally].  On a host whose tools remove no
    directory, it does so on every way out; the other two leave it behind
    as soon as the first tool fails. *)

Section Scratch.

Context (env : Env).
Context (Htools : tools_keep_dirs env).

Lemma dirs_ret {A} (a : A) : keeps_dirs (ret a).
Proof. now intros w p. Qed.

Lemma dirs_raise {A} (e : exn) : keeps_dirs (@raise A e).
Proof. now intros w p. Qed.

Lemma dirs_bind {A B} (m : M A) (k : A → M B) :
  keeps_dirs m → (∀ a, keeps_dirs (k a)) → keeps_dirs (bind m k).
Proof.
  intros Hm Hk w p Hp. unfold bind. specialize (Hm w p Hp).
  destruct (m w) as [[a | e] w1]; cbn in *; [| assumption].
  now apply Hk.
Qed.

Lemma dirs_for_each {A} (l : list A) (body : A → M unit) :
  (∀ a, keeps_dirs (body a)) → keeps_dirs (for_each l body).
Proof.
  intros Hb. induction l as [| x l IH]; cbn [for_each].
  - apply dirs_ret.
  - apply dirs_bind; auto.
Qed.

Lemma dirs_print l : keeps_dirs (print l).
Proof. now intros w p. Qed.

Lemma dirs_resolve q : keeps_dirs (resolve env q).
Proof. intros w p Hp. unfold resolve. now destruct (String.eqb q ""). Qed.

Lemma dirs_chdir q : keeps_dirs (os_chdir env q).
Proof.
  unfold os_chdir. apply dirs_bind; [apply dirs_resolve |].
  intros r w p Hp. now repeat case_match.
Qed.

Lemma dirs_check_call cmd : keeps_dirs (subprocess_check_call env cmd).
Proof.
  intros w p Hp. unfold subprocess_check_call.
  pose proof (Htools cmd (cwd w) (fs w) p Hp) as H.
  destruct (tool env cmd (cwd w) (fs w)) as [[rc |] f]; cbn in H;
    [destruct (Z.eqb rc 0) |]; exact H.
Qed.

Lemma dirs_read_file q : keeps_dirs (read_file env q).
Proof.
  unfold read_file. apply dirs_bind; [apply dirs_resolve |].
  intros r w p Hp. now repeat case_match.
Qed.

Lemma dirs_write_file q data : keeps_dirs (write_file env q data).
Proof.
  intros w p Hp. destruct (write_file env q data w) as [r w1] eqn:E.
  apply write_file_preserves in E as (_ & Hd & _). now apply Hd.
Qed.

Lemma dirs_copyfile src dst : keeps_dirs (shutil_copyfile env src dst).
Proof.
  unfold shutil_copyfile.
  apply dirs_bind; [apply dirs_resolve | intros rs].
  apply dirs_bind; [apply dirs_resolve | intros rd].
  destruct (String.eqb rs rd); [apply dirs_raise |].
  apply dirs_bind; [apply dirs_read_file | intros data; apply dirs_write_file].
Qed.

Lemma dirs_stat q : keeps_dirs (os_stat_st_mode env q).
Proof.
  unfold os_stat_st_mode. apply dirs_bind; [apply dirs_resolve |].
  intros r w p Hp. now repeat case_match.
Qed.

Lemma dirs_chmod q mode : keeps_dirs (os_chmod env q mode).
Proof.
  unfold os_chmod. apply dirs_bind; [apply dirs_resolve |].
  intros r w p Hp. destruct (fs w !! r) as [n |] eqn:E; [| assumption].
  cbn [snd fs set_fs]. destruct (decide (r = p)) as [-> | Hne].
  - rewrite lookup_insert_eq. rewrite E in Hp. now destruct n.
  - now rewrite lookup_insert_ne.
Qed.

Lemma dirs_make_executable q : keeps_dirs (_make_executable env q).
Proof.
  unfold _make_executable. apply dirs_bind; [apply dirs_stat | intros mode].
  apply dirs_bind; [apply dirs_print | intros _; apply dirs_chmod].
Qed.

(** What [mkdtemp] has done when it returns: one new directory, under one
    of its candidate names. *)
Lemma mkdtemp_from_creates names w t w0 :
  mkdtemp_from env names w = (Ok t, w0) →
  t ∈ names
  ∧ fs w !! t = None
  ∧ fs w0 = <[t := Dir (Z.lor S_IFDIR o700)]> (fs w)
  ∧ cwd w0 = cwd w.
Proof.
  revert w. induction names as [| n rest IH]; intros w; cbn [mkdtemp_from].
  - discriminate.
  - unfold mkdir_at. intros H.
    repeat case_match; simplify_eq;
      try (destruct (IH _ H) as (Hin & Hnone & Hfs & Hcwd);
           repeat split; [now right | assumption..]).
    repeat split; [now left | assumption].
Qed.

(** The [finally] clause of the Linux unpacker, where both directories
    are still there: it goes through and the scratch directory is gone. *)
Lemma linux_finally_removes cur_wd t w :
  settled env cur_wd → settled env t →
  is_dir (fs w !! cur_wd) = true →
  is_dir (fs w !! t) = true →
  ∃ w', (os_chdir env cur_wd >>> shutil_rmtree env t) w = (Ok tt, w')
        ∧ fs w' !! t = None.
Proof.
  intros [Hc1 Hc2] [Ht1 Ht2] Hcd Htd.
  apply String.eqb_neq in Hc1, Ht1.
  unfold os_chdir, shutil_rmtree, resolve, bind. rewrite Hc1, Hc2.
  destruct (fs w !! cur_wd) as [[] |] eqn:E1; try discriminate.
  rewrite Ht1. cbn [cwd fs set_cwd]. rewrite Ht2.
  destruct (fs w !! t) as [[] |] eqn:E2; try discriminate.
  eexists. split; [reflexivity |]. cbn [fs set_fs].
  apply map_lookup_filter_None_2. right. intros x _ [Hne _]. now apply Hne.
Qed.

Lemma linux_body_keeps_dirs (tempfolder filename targetfolder : string) :
  keeps_dirs (linux_body env tempfolder filename targetfolder).
Proof.
  unfold linux_body.
  repeat first
    [ apply dirs_chdir | apply dirs_check_call | apply dirs_print
    | apply dirs_copyfile | apply dirs_make_executable
    | apply dirs_for_each; intros ?
    | apply dirs_bind; [| intros ?] ].
Qed.


(** X16. The macOS unpacker: when [pkgutil] exits with a status other
    than 0, [CalledProcessError] carries that status and the scratch
    directory [t] is still there on return. *)
Theorem handle_darwin_leaves_scratch (filename targetfolder : string) (w w0 : World)
    (t : string) (rc : Z) (f : gmap string node) :
  tempfile_mkdtemp env (add_line ("* Unpacking " +:+ filename +:+ " to tempfolder...") w)
  = (Ok t, w0) →
  tool env ["pkgutil"; "--expand"; filename; os_path_join env t ["tmp"]] (cwd w0) (fs w0)
  = (Exited rc, f) →
  rc ≠ 0 →
  (_handle_darwin env filename targetfolder w).1
  = Raise (CalledProcessError rc
             ["pkgutil"; "--expand"; filename; os_path_join env t ["tmp"]])
  ∧ is_dir (fs (_handle_darwin env filename targetfolder w).2 !! t) = true.
Proof.
  intros Hmk Htool Hrc.
  destruct (mkdtemp_from_creates _ _ _ _ Hmk) as (_ & _ & Hfs & _).
  pose proof (Htools ["pkgutil"; "--expand"; filename; os_path_join env t ["tmp"]]
                (cwd w0) (fs w0) t) as Hkeep.
  rewrite Htool in Hkeep. cbn [snd] in Hkeep.
  assert (E : _handle_darwin env filename targetfolder w
              = (Raise (CalledProcessError rc
                          ["pkgutil"; "--expand"; filename; os_path_join env t ["tmp"]]),
                 set_fs f w0)).
  { unfold _handle_darwin, print, modify. unfold bind at 1. unfold bind at 1.
    rewrite Hmk. unfold bind at 1. unfold subprocess_check_call at 1. rewrite Htool.
    apply Z.eqb_neq in Hrc. now rewrite Hrc. }
  rewrite E. cbn [fst snd fs set_fs].
  split; [reflexivity |]. apply Hkeep. rewrite Hfs. now rewrite lookup_insert_eq.
Qed.

(** X17. The Windows unpacker: when [msiexec] exits with a status other
    than 0, [CalledProcessError] carries that status and the scratch
    directory [t] is still there on return. *)
Theorem handle_win32_leaves_scratch (filename targetfolder : string) (w w0 : World)
    (t : string) (rc : Z) (f : gmap string node) :
  tempfile_mkdtemp env (add_line ("* Unpacking " +:+ filename +:+ " to tempfolder...") w)
  = (Ok t, w0) →
  tool env ["msiexec"; "/a"; filename; "/qb"; "TARGETDIR=" +:+ t] (cwd w0) (fs w0)
  = (Exited rc, f) →
  rc ≠ 0 →
  (_handle_win32 env filename targetfolder w).1
  = Raise (CalledProcessError rc ["msiexec"; "/a"; filename; "/qb"; "TARGETDIR=" +:+ t])
  ∧ is_dir (fs (_handle_win32 env filename targetfolder w).2 !! t) = true.
Proof.
  intros Hmk Htool Hrc.
  destruct (mkdtemp_from_creates _ _ _ _ Hmk) as (_ & _ & Hfs & _).
  pose proof (Htools ["msiexec"; "/a"; filename; "/qb"; "TARGETDIR=" +:+ t]
                (cwd w0) (fs w0) t) as Hkeep.
  rewrite Htool in Hkeep. cbn [snd] in Hkeep.
  assert (E : _handle_win32 env filename targetfolder w
              = (Raise (CalledProcessError rc
                          ["msiexec"; "/a"; filename; "/qb"; "TARGETDIR=" +:+ t]),
                 set_fs f w0)).
  { unfold _handle_win32, print, modify. unfold bind at 1. unfold bind at 1.
    rewrite Hmk. unfold bind at 1. unfold subprocess_check_call at 1. rewrite Htool.
    apply Z.eqb_neq in Hrc. now rewrite Hrc. }
  rewrite E. cbn [fst snd fs set_fs].
  split; [reflexivity |]. apply Hkeep. rewrite Hfs. now rewrite lookup_insert_eq.
Qed.

End Scratch.

(** ** The code at work on a host *)

Section OnHost.

Local Abbreviation deb_url :=
  "https://github.com/jgm/pandoc/releases/download/1.19.1/pandoc-1.19.1-1-amd64.deb".
Local Abbreviation deb := "pandoc-1.19.1-1-amd64.deb".

(** A first installation on Linux: one request, three files installed,
    nothing left in [/tmp]. *)
Example install_on_linux :
  let out := download_pandoc (Host.env "linux" "64bit") None None None Host.world in
  out.1 = Ok tt
  ∧ calls out.2 = [deb_url]
  ∧ fs out.2 !! "/home/u/dl/pandoc-1.19.1-1-amd64.deb"
    = Some (File ("body of " +:+ deb_url) 0x81a4)
  ∧ fs out.2 !! "/home/u/bin/pandoc" = Some (File "ELF pandoc" 0x81ed)
  ∧ fs out.2 !! "/home/u/bin/pandoc-citeproc" = Some (File "ELF citeproc" 0x81ed)
  ∧ fs out.2 !! "/home/u/bin/copyright.pandoc" = Some (File "GPL" 0x81a4)
  ∧ fs out.2 !! "/tmp/tmpa" = None.
Proof. vm_compute. repeat split. Qed.

Lemma make_executable_witness :
  "pandoc" ≠ ""
  ∧ fs (Host.world_with "pandoc")
      !! op_abspath posixpath (cwd (Host.world_with "pandoc")) "pandoc"
    = Some (File "archive" 0x81a4)
  ∧ _make_executable (Host.env "linux" "64bit") "pandoc" (Host.world_with "pandoc")
    = (Ok tt,
       set_fs (<["/home/u/dl/pandoc" := File "archive" 0x81ed]>
                 (fs (Host.world_with "pandoc")))
         (add_line "* Making pandoc executeable..." (Host.world_with "pandoc"))).
Proof.
  split; [discriminate |]. split; [reflexivity |].
  refine (proj1 (make_executable_copies_read_to_execute
                   (Host.env "linux" "64bit") "pandoc" "archive" 0x81a4
                   (Host.world_with "pandoc") _ _)).
  - discriminate.
  - reflexivity.
Defined.

Lemma unrecognised_platform_witness :
  Str.startswith "linux" (sys_platform (Host.env "sunos5" "64bit")) = false
  ∧ sys_platform (Host.env "sunos5" "64bit") ≠ "win32"
  ∧ sys_platform (Host.env "sunos5" "64bit") ≠ "darwin"
  ∧ download_pandoc (Host.env "sunos5" "64bit") None None None Host.world
    = (Raise (RuntimeError "Can't handle your platform (only Linux, Mac OS X, Windows)."),
       Host.world).
Proof.
  split; [reflexivity |]. split; [discriminate |]. split; [discriminate |].
  refine (proj1 (unrecognised_platform_fails_fast
                   (Host.env "sunos5" "64bit") None None None Host.world _ _ _)).
  - reflexivity.
  - discriminate.
  - discriminate.
Defined.

(** Python 2 reports Linux as [linux2]: the key is none of [win32],
    [linux], [darwin], and the installation goes through, download
    included. *)
Lemma linux2_is_installed :
  sys_platform (Host.env "linux2" "64bit") ≠ "win32"
  ∧ sys_platform (Host.env "linux2" "64bit") ≠ "linux"
  ∧ sys_platform (Host.env "linux2" "64bit") ≠ "darwin"
  ∧ (download_pandoc (Host.env "linux2" "64bit") None None None Host.world).1 = Ok tt
  ∧ calls (download_pandoc (Host.env "linux2" "64bit") None None None Host.world).2
    = [deb_url]
  ∧ fs (download_pandoc (Host.env "linux2" "64bit") None None None Host.world).2
      !! "/home/u/bin/pandoc"
    = Some (File "ELF pandoc" 0x81ed).
Proof.
  split; [discriminate |]. split; [discriminate |]. split; [discriminate |].
  vm_compute. repeat split.
Qed.

Lemma linux_not_64bit_witness :
  Str.startswith "linux" (sys_platform (Host.env "linux" "32bit")) = true
  ∧ architecture (Host.env "linux" "32bit") ≠ "64bit"
  ∧ download_pandoc (Host.env "linux" "32bit") None None None Host.world
    = (Raise (RuntimeError "Linux pandoc is only compiled for 64bit."), Host.world)
  ∧ calls (download_pandoc (Host.env "linux" "32bit") None None None Host.world).2 = [].
Proof.
  split; [reflexivity |]. split; [discriminate |].
  refine (linux_not_64bit_fails_fast
            (Host.env "linux" "32bit") None None None Host.world _ _).
  - reflexivity.
  - discriminate.
Defined.

Lemma explicit_url_witness :
  Str.startswith "linux" (sys_platform (Host.env "sunos5" "64bit")) = false
  ∧ sys_platform (Host.env "sunos5" "64bit") ≠ "win32"
  ∧ sys_platform (Host.env "sunos5" "64bit") ≠ "darwin"
  ∧ download_pandoc (Host.env "sunos5" "64bit") (Some "https://example.org/p.deb")
      None None Host.world
    = (Raise (RuntimeError "Can't handle your platform (only Linux, Mac OS X, Windows)."),
       Host.world)
  ∧ calls (download_pandoc (Host.env "sunos5" "64bit")
             (Some "https://example.org/p.deb") None None Host.world).2 = [].
Proof.
  split; [reflexivity |]. split; [discriminate |]. split; [discriminate |].
  refine (explicit_url_does_not_bypass_platform_check
            (Host.env "sunos5" "64bit") "https://example.org/p.deb" None None
            Host.world _ _ _).
  - reflexivity.
  - discriminate.
  - discriminate.
Defined.

(** On a fresh account the archive is requested once and stored under
    its name with the body the server sent; with the archive in the
    working directory it is not requested at all. *)
Lemma download_only_when_absent_witness :
  (platform_key (Host.env "linux" "64bit") (_get_pandoc_urls (default "1.19.1" None))
     Host.world = (Ok "linux", Host.world)
   ∧ chosen_url None (_get_pandoc_urls (default "1.19.1" None)) "linux" = Some deb_url
   ∧ os_path_isfile (Host.env "linux" "64bit") (basename deb_url) Host.world
     = (Ok false, Host.world)
   ∧ remote (Host.env "linux" "64bit") deb_url = Some ("body of " +:+ deb_url)
   ∧ cut (Host.env "linux" "64bit") deb_url = None
   ∧ basename deb_url ≠ ""
   ∧ is_dir (fs Host.world !! "/home/u/dl/pandoc-1.19.1-1-amd64.deb") = false
   ∧ is_dir (fs Host.world !! "/home/u/dl") = true
   ∧ denied (Host.env "linux" "64bit") "/home/u/dl/pandoc-1.19.1-1-amd64.deb" = false
   ∧ calls (download_pandoc (Host.env "linux" "64bit") None None None Host.world).2
     = [deb_url]
   ∧ fs (download_pandoc (Host.env "linux" "64bit") None None None Host.world).2
       !! "/home/u/dl/pandoc-1.19.1-1-amd64.deb"
     = Some (File ("body of " +:+ deb_url) 0x81a4))
  ∧ (platform_key (Host.env "linux" "64bit") (_get_pandoc_urls (default "1.19.1" None))
       (Host.world_with deb) = (Ok "linux", Host.world_with deb)
     ∧ chosen_url None (_get_pandoc_urls (default "1.19.1" None)) "linux" = Some deb_url
     ∧ os_path_isfile (Host.env "linux" "64bit") (basename deb_url) (Host.world_with deb)
       = (Ok true, Host.world_with deb)
     ∧ calls (download_pandoc (Host.env "linux" "64bit") None None None
                (Host.world_with deb)).2 = []
     ∧ fs (download_pandoc (Host.env "linux" "64bit") None None None
             (Host.world_with deb)).2 !! "/home/u/dl/pandoc-1.19.1-1-amd64.deb"
       = Some (File "archive" 0x81a4)).
Proof.
  split.
  - split; [reflexivity |]. split; [reflexivity |]. split; [reflexivity |].
    split; [reflexivity |]. split; [reflexivity |]. split; [discriminate |].
    split; [reflexivity |]. split; [reflexivity |]. split; [reflexivity |].
    destruct (proj2 (download_only_when_absent
                       (Host.env "linux" "64bit") None None None Host.world
                       "linux" deb_url eq_refl eq_refl) eq_refl) as [Hcalls Hstored].
    split; [exact Hcalls |].
    rewrite (Hstored ("body of " +:+ deb_url) eq_refl eq_refl).
    + reflexivity.
    + discriminate.
    + reflexivity.
    + reflexivity.
    + reflexivity.
  - split; [reflexivity |]. split; [reflexivity |]. split; [reflexivity |].
    destruct (proj1 (download_only_when_absent
                       (Host.env "linux" "64bit") None None None
                       (Host.world_with deb) "linux" deb_url eq_refl eq_refl) eq_refl)
      as [Hcalls Hrun].
    split; [exact Hcalls |]. rewrite Hrun. reflexivity.
Defined.

Lemma existing_target_folder_witness :
  platform_key (Host.env "darwin" "64bit") (_get_pandoc_urls (default "1.19.1" None))
    (Host.world_with "p.pkg") = (Ok "darwin", Host.world_with "p.pkg")
  ∧ chosen_url (Some "https://example.org/dl/p.pkg")
      (_get_pandoc_urls (default "1.19.1" None)) "darwin"
    = Some "https://example.org/dl/p.pkg"
  ∧ chosen_target (Some "~/opt") "darwin" = Some "~/opt"
  ∧ "/home/u/opt" ≠ ""
  ∧ is_dir (fs (Host.world_with "p.pkg") !! "/home/u/opt") = true
  ∧ Forall (λ a, is_Some (fs (Host.world_with "p.pkg") !! a)) ["/home"; "/home/u"]
  ∧ os_makedirs (Host.env "darwin" "64bit") "/home/u/opt" (Host.world_with "p.pkg")
    = (Raise (OSError EEXIST "/home/u/opt"), Host.world_with "p.pkg")
  ∧ make_target (Host.env "darwin" "64bit") "darwin" (Some "~/opt") (Host.world_with "p.pkg")
    = (Ok "/home/u/opt", Host.world_with "p.pkg")
  ∧ download_pandoc (Host.env "darwin" "64bit") (Some "https://example.org/dl/p.pkg")
      (Some "~/opt") None (Host.world_with "p.pkg")
    = (let* filename := fetch (Host.env "darwin" "64bit") "https://example.org/dl/p.pkg" in
       dispatch (Host.env "darwin" "64bit") "darwin" filename "/home/u/opt")
        (Host.world_with "p.pkg").
Proof.
  assert (Hanc : Forall (λ a, is_Some (fs (Host.world_with "p.pkg") !! a))
                   ["/home"; "/home/u"]).
  { repeat constructor; eexists; reflexivity. }
  split; [reflexivity |]. split; [reflexivity |]. split; [reflexivity |].
  split; [discriminate |]. split; [reflexivity |]. split; [exact Hanc |].
  refine (existing_target_folder_is_accepted
            (Host.env "darwin" "64bit") (Some "https://example.org/dl/p.pkg")
            (Some "~/opt") None (Host.world_with "p.pkg") "darwin"
            "https://example.org/dl/p.pkg" "~/opt" _ _ _ _ _ _).
  - reflexivity.
  - reflexivity.
  - reflexivity.
  - discriminate.
  - reflexivity.
  - exact Hanc.
Defined.

(** With [~/bin] on a read-only mount, creating it fails with [EACCES];
    the run goes on to the Linux unpacker all the same. *)
Lemma makedirs_oserror_witness :
  platform_key (Host.locked "linux" "64bit") (_get_pandoc_urls (default "1.19.1" None))
    Host.world = (Ok "linux", Host.world)
  ∧ chosen_url None (_get_pandoc_urls (default "1.19.1" None)) "linux" = Some deb_url
  ∧ chosen_target None "linux" = Some "~/bin"
  ∧ fetch (Host.locked "linux" "64bit") deb_url Host.world
    = (Ok deb, (fetch (Host.locked "linux" "64bit") deb_url Host.world).2)
  ∧ os_makedirs (Host.locked "linux" "64bit") "/home/u/bin"
      (fetch (Host.locked "linux" "64bit") deb_url Host.world).2
    = (Raise (OSError EACCES "/home/u/bin"),
       (fetch (Host.locked "linux" "64bit") deb_url Host.world).2)
  ∧ make_target (Host.locked "linux" "64bit") "linux" None
      (fetch (Host.locked "linux" "64bit") deb_url Host.world).2
    = (Ok "/home/u/bin", (fetch (Host.locked "linux" "64bit") deb_url Host.world).2)
  ∧ download_pandoc (Host.locked "linux" "64bit") None None None Host.world
    = dispatch (Host.locked "linux" "64bit") "linux" deb "/home/u/bin"
        (fetch (Host.locked "linux" "64bit") deb_url Host.world).2.
Proof.
  split; [reflexivity |]. split; [reflexivity |]. split; [reflexivity |].
  split; [reflexivity |]. split; [reflexivity |].
  refine (makedirs_oserror_is_suppressed
            (Host.locked "linux" "64bit") None None None Host.world
            (fetch (Host.locked "linux" "64bit") deb_url Host.world).2
            (fetch (Host.locked "linux" "64bit") deb_url Host.world).2
            "linux" deb_url "~/bin" deb "/home/u/bin" EACCES _ _ _ _ _).
  - reflexivity.
  - reflexivity.
  - reflexivity.
  - reflexivity.
  - reflexivity.
Defined.

(** *** What the unpackers install *)

(** The Linux unpacker installs both executables and the copyright file. *)
Example handle_linux_installs :
  let out := _handle_linux (Host.env "linux" "64bit") "p.deb" "/home/u/opt"
               (Host.world_with "p.deb") in
  out.1 = Ok tt
  ∧ dom (filter (λ kv, Path.below "/home/u/opt" kv.1 = true) (fs out.2))
    = {[ "/home/u/opt/pandoc"; "/home/u/opt/pandoc-citeproc";
         "/home/u/opt/copyright.pandoc" ]}.
Proof. vm_compute. split; reflexivity. Qed.

(** The Windows unpacker installs both executables and the copyright file. *)
Example handle_win32_installs :
  let out := _handle_win32 (Host.env "win32" "64bit") "p.msi" "/home/u/opt"
               (Host.world_with "p.msi") in
  out.1 = Ok tt
  ∧ dom (filter (λ kv, Path.below "/home/u/opt" kv.1 = true) (fs out.2))
    = {[ "/home/u/opt/pandoc.exe"; "/home/u/opt/pandoc-citeproc.exe";
         "/home/u/opt/COPYRIGHT.txt" ]}.
Proof. vm_compute. split; reflexivity. Qed.

(** C2, where the code falls short. The macOS unpacker ends normally on
    a package whose payload holds the two executables and a copyright
    file; the target folder then holds the two executables and nothing
    else: no copyright or license file has been copied. *)
Theorem handle_darwin_installs_no_license :
  let out := _handle_darwin (Host.env "darwin" "64bit") "p.pkg" "/home/u/opt"
               (Host.world_with "p.pkg") in
  out.1 = Ok tt
  ∧ fs out.2 !! "/home/u/opt/pandoc" = Some (File "Mach-O pandoc" 0x81ed)
  ∧ dom (filter (λ kv, Path.below "/home/u/opt" kv.1 = true) (fs out.2))
    = {[ "/home/u/opt/pandoc"; "/home/u/opt/pandoc-citeproc" ]}.
Proof. vm_compute. repeat split. Qed.

(** *** What the unpackers leave behind *)

(** C3, where the code falls short. With the archive missing, the
    extraction tool exits with status 1 and [check_call] raises.  The
    Windows and the macOS unpacker then leave the scratch directory they
    made on disk; so does the macOS unpacker when a copy raises because
    the target folder is missing.  The Linux unpacker, on the same
    failure, has removed its scratch directory. *)
Theorem scratch_directory_left_behind :
  fs Host.world !! "/tmp/tmpa" = None
  ∧ (let out := _handle_win32 (Host.env "win32" "64bit") "p.msi" "/home/u/opt"
                  Host.world in
     out.1 = Raise (CalledProcessError 1
                      ["msiexec"; "/a"; "p.msi"; "/qb"; "TARGETDIR=/tmp/tmpa"])
     ∧ is_dir (fs out.2 !! "/tmp/tmpa") = true)
  ∧ (let out := _handle_darwin (Host.env "darwin" "64bit") "p.pkg" "/home/u/opt"
                  Host.world in
     out.1 = Raise (CalledProcessError 1
                      ["pkgutil"; "--expand"; "p.pkg"; "/tmp/tmpa/tmp"])
     ∧ is_dir (fs out.2 !! "/tmp/tmpa") = true)
  ∧ (let out := _handle_darwin (Host.env "darwin" "64bit") "p.pkg" "/home/u/none"
                  (Host.world_with "p.pkg") in
     out.1 = Raise (OSError ENOENT "/home/u/none/pandoc")
     ∧ is_dir (fs out.2 !! "/tmp/tmpa") = true)
  ∧ (let out := _handle_linux (Host.env "linux" "64bit") "p.deb" "/home/u/opt"
                  Host.world in
     out.1 = Raise (CalledProcessError 1 ["ar"; "x"; "/home/u/dl/p.deb"])
     ∧ fs out.2 !! "/tmp/tmpa" = None).
Proof. vm_compute. repeat split. Qed.

(** *** The scripted tools remove no directory *)

Lemma put_dirs_keeps ds (f : gmap string node) p :
  is_dir (f !! p) = true → is_dir (Host.put_dirs ds f !! p) = true.
Proof.
  unfold Host.put_dirs. revert f.
  induction ds as [| d ds IH]; intros f Hp; cbn [fold_left]; [assumption |].
  apply IH. destruct (is_dir (f !! d)) eqn:Hd; [assumption |].
  destruct (decide (d = p)) as [-> | Hne].
  - now rewrite lookup_insert_eq.
  - now rewrite lookup_insert_ne.
Qed.

Lemma put_files_keeps fl (f : gmap string node) p :
  is_dir (f !! p) = true → is_dir (Host.put_files fl f !! p) = true.
Proof.
  unfold Host.put_files. revert f.
  induction fl as [| [k v] fl IH]; intros f Hp; cbn [fold_left]; [assumption |].
  apply IH. cbn [fst snd]. destruct (is_dir (f !! k)) eqn:Hd; [assumption |].
  destruct (decide (k = p)) as [-> | Hne].
  - congruence.
  - now rewrite lookup_insert_ne.
Qed.

Lemma host_tools_keep_dirs platform arch : tools_keep_dirs (Host.env platform arch).
Proof.
  intros cmd wd f p Hp. cbn [tool Host.env]. unfold Host.tools.
  destruct (Host.script cmd wd f); cbn [snd]; [| assumption..].
  now apply put_files_keeps, put_dirs_keeps.
Qed.

Lemma host_settled platform arch p :
  Path.isabs p = true → Path.normpath p = p → p ≠ "" →
  settled (Host.env platform arch) p.
Proof.
  intros Habs Hnorm Hne. split; [assumption |]. intros wd.
  cbn [os_path Host.env op_abspath posixpath]. unfold Path.abspath. now rewrite Habs.
Qed.


Lemma handle_darwin_leaves_scratch_witness :
  tools_keep_dirs (Host.env "darwin" "64bit")
  ∧ tempfile_mkdtemp (Host.env "darwin" "64bit")
      (add_line "* Unpacking p.pkg to tempfolder..." Host.world)
    = (Ok "/tmp/tmpa",
       (tempfile_mkdtemp (Host.env "darwin" "64bit")
          (add_line "* Unpacking p.pkg to tempfolder..." Host.world)).2)
  ∧ (1 ≠ 0)
  ∧ (_handle_darwin (Host.env "darwin" "64bit") "p.pkg" "/home/u/opt" Host.world).1
    = Raise (CalledProcessError 1 ["pkgutil"; "--expand"; "p.pkg"; "/tmp/tmpa/tmp"])
  ∧ is_dir (fs (_handle_darwin (Host.env "darwin" "64bit") "p.pkg" "/home/u/opt"
                  Host.world).2 !! "/tmp/tmpa") = true.
Proof.
  split; [apply host_tools_keep_dirs |]. split; [reflexivity |].
  split; [discriminate |].
  refine (handle_darwin_leaves_scratch (Host.env "darwin" "64bit")
            (host_tools_keep_dirs "darwin" "64bit") "p.pkg" "/home/u/opt" Host.world
            (tempfile_mkdtemp (Host.env "darwin" "64bit")
               (add_line "* Unpacking p.pkg to tempfolder..." Host.world)).2
            "/tmp/tmpa" 1
            (fs (tempfile_mkdtemp (Host.env "darwin" "64bit")
                   (add_line "* Unpacking p.pkg to tempfolder..." Host.world)).2)
            _ _ _).
  - reflexivity.
  - reflexivity.
  - discriminate.
Defined.

Lemma handle_win32_leaves_scratch_witness :
  tools_keep_dirs (Host.env "win32" "64bit")
  ∧ tempfile_mkdtemp (Host.env "win32" "64bit")
      (add_line "* Unpacking p.msi to tempfolder..." Host.world)
    = (Ok "/tmp/tmpa",
       (tempfile_mkdtemp (Host.env "win32" "64bit")
          (add_line "* Unpacking p.msi to tempfolder..." Host.world)).2)
  ∧ (1 ≠ 0)
  ∧ (_handle_win32 (Host.env "win32" "64bit") "p.msi" "/home/u/opt" Host.world).1
    = Raise (CalledProcessError 1
               ["msiexec"; "/a"; "p.msi"; "/qb"; "TARGETDIR=/tmp/tmpa"])
  ∧ is_dir (fs (_handle_win32 (Host.env "win32" "64bit") "p.msi" "/home/u/opt"
                  Host.world).2 !! "/tmp/tmpa") = true.
Proof.
  split; [apply host_tools_keep_dirs |]. split; [reflexivity |].
  split; [discriminate |].
  refine (handle_win32_leaves_scratch (Host.env "win32" "64bit")
            (host_tools_keep_dirs "win32" "64bit") "p.msi" "/home/u/opt" Host.world
            (tempfile_mkdtemp (Host.env "win32" "64bit")
               (add_line "* Unpacking p.msi to tempfolder..." Host.world)).2
            "/tmp/tmpa" 1
            (fs (tempfile_mkdtemp (Host.env "win32" "64bit")
                   (add_line "* Unpacking p.msi to tempfolder..." Host.world)).2)
            _ _ _).
  - reflexivity.
  - reflexivity.
  - discriminate.
Defined.

End OnHost.

(** * Further properties *)

(** ** The three tables of the module agree *)

Lemma urls_keys (V pf : string) :
  is_Some (_get_pandoc_urls V !! pf) ↔ pf = "win32" ∨ pf = "linux" ∨ pf = "darwin".
Proof.
  split.
  - intros Hs.
    destruct (decide (pf = "win32")); [tauto |].
    destruct (decide (pf = "linux")); [tauto |].
    destruct (decide (pf = "darwin")); [tauto |].
    rewrite urls_other in Hs by assumption. now destruct Hs.
  - intros [-> | [-> | ->]];
      [rewrite urls_win32 | rewrite urls_linux | rewrite urls_darwin]; eauto.
Qed.

Lemma default_folder_keys (pf : string) :
  is_Some (DEFAULT_TARGET_FOLDER !! pf) ↔ pf = "win32" ∨ pf = "linux" ∨ pf = "darwin".
Proof.
  unfold DEFAULT_TARGET_FOLDER. split.
  - intros Hs.
    destruct (decide (pf = "win32")); [tauto |].
    destruct (decide (pf = "linux")); [tauto |].
    destruct (decide (pf = "darwin")); [tauto |].
    do 3 (rewrite lookup_insert_ne in Hs by congruence).
    rewrite lookup_empty in Hs. now destruct Hs.
  - intros [-> | [-> | ->]]; vm_compute; eauto.
Qed.

Lemma handler_name_inj (a b : string) : "_handle_" +:+ a = "_handle_" +:+ b → a = b.
Proof. intros H. now inversion H. Qed.

Lemma handler_keys (env : Env) (pf : string) :
  is_Some (globals_get env ("_handle_" +:+ pf))
  ↔ pf = "win32" ∨ pf = "linux" ∨ pf = "darwin".
Proof.
  unfold globals_get. split.
  - intros Hs.
    destruct (String.eqb_spec ("_handle_" +:+ pf) "_handle_linux") as [E | _].
    { apply (handler_name_inj pf "linux") in E. tauto. }
    destruct (String.eqb_spec ("_handle_" +:+ pf) "_handle_darwin") as [E | _].
    { apply (handler_name_inj pf "darwin") in E. tauto. }
    destruct (String.eqb_spec ("_handle_" +:+ pf) "_handle_win32") as [E | _].
    { apply (handler_name_inj pf "win32") in E. tauto. }
    now destruct Hs.
  - intros [-> | [-> | ->]]; cbn; eauto.
Qed.

(** X1. The URL table, the table of default target folders and the
    unpackers found by name have the same keys: a platform key has a
    download URL exactly when it has a default folder, and exactly when
    [globals()] holds an unpacker [_handle_<key>] for it. *)
Theorem platform_tables_agree (env : Env) (V pf : string) :
  (is_Some (_get_pandoc_urls V !! pf) ↔ is_Some (DEFAULT_TARGET_FOLDER !! pf))
  ∧ (is_Some (_get_pandoc_urls V !! pf)
     ↔ is_Some (globals_get env ("_handle_" +:+ pf))).
Proof.
  rewrite urls_keys, default_folder_keys, handler_keys. tauto.
Qed.

(** ** After the platform check *)

Section Raises.

Context (env : Env).

Lemma raises_ret {A} Q (a : A) : raises_only Q (ret a).
Proof. now intros w. Qed.

Lemma raises_bind {A B} Q (m : M A) (k : A → M B) :
  raises_only Q m → (∀ a, raises_only Q (k a)) → raises_only Q (bind m k).
Proof.
  intros Hm Hk w. unfold bind. specialize (Hm w).
  destruct (m w) as [[a | e] w1]; cbn in *; [apply Hk | assumption].
Qed.

Ltac raised_by_cases :=
  let w := fresh "w" in
  intros w; repeat case_match; simplify_eq /=; exact I.

Lemma oserror_resolve p : raises_only is_oserror (resolve env p).
Proof. unfold resolve. raised_by_cases. Qed.

Lemma oserror_mkdir_at r shown mode :
  Str.has_nul shown = false → raises_only is_oserror (mkdir_at env r shown mode).
Proof. intros Hn. unfold mkdir_at. rewrite Hn. raised_by_cases. Qed.

(** With no NUL in the names it goes through, the walk of [os.makedirs]
    raises nothing but [OSError]. *)
Lemma oserror_walk (l : list string) :
  Forall (λ a, Str.has_nul a = false) l →
  raises_only is_oserror
    (for_each l
       (λ a w, match fs w !! a with
               | Some _ => (Ok tt, w)
               | None => mkdir_at env a a (default_dir_mode env) w
               end)).
Proof.
  induction 1 as [| a l Ha _ IH]; cbn [for_each]; [apply raises_ret |].
  apply raises_bind; [| intros _; exact IH].
  intros w. destruct (fs w !! a); [exact I | now apply oserror_mkdir_at].
Qed.

Lemma oserror_makedirs p w :
  Str.has_nul p = false →
  Forall (λ a, Str.has_nul a = false)
    (op_ancestors (os_path env) (op_abspath (os_path env) (cwd w) p)) →
  match (os_makedirs env p w).1 with
  | Raise e => is_oserror e
  | Ok _ => True
  end.
Proof.
  intros Hp Hanc. unfold os_makedirs, resolve. unfold bind at 1.
  destruct (String.eqb p ""); [exact I |].
  apply raises_bind; [now apply oserror_walk | intros _; now apply oserror_mkdir_at].
Qed.

(** The platform check lets a key through only if it has a URL. *)
Lemma platform_key_ok urls w pf w' :
  platform_key env urls w = (Ok pf, w') → is_Some (urls !! pf).
Proof.
  unfold platform_key, bind, ret, raise. intros H.
  repeat case_match; simplify_eq; eauto.
Qed.

(** X2. A key that gets past the platform check has a URL, a default
    target folder and an unpacker, and that unpacker is the one of the
    platform: neither [pandoc_urls[pf]] nor [DEFAULT_TARGET_FOLDER[pf]]
    can raise [KeyError], the assertion on the unpacker cannot fail, and
    [download_pandoc] ends with a call of [_handle_win32], [_handle_linux]
    or [_handle_darwin]. *)
Theorem checked_key_is_served (V : string) (w w' : World) (pf : string) :
  platform_key env (_get_pandoc_urls V) w = (Ok pf, w') →
  is_Some (_get_pandoc_urls V !! pf)
  ∧ is_Some (DEFAULT_TARGET_FOLDER !! pf)
  ∧ ((pf = "win32" ∧ ∀ f t, dispatch env pf f t = _handle_win32 env f t)
     ∨ (pf = "linux" ∧ ∀ f t, dispatch env pf f t = _handle_linux env f t)
     ∨ (pf = "darwin" ∧ ∀ f t, dispatch env pf f t = _handle_darwin env f t)).
Proof.
  intros Hpk. pose proof (platform_key_ok _ _ _ _ Hpk) as Hurl.
  split; [exact Hurl |].
  apply urls_keys in Hurl. split; [now apply default_folder_keys |].
  destruct Hurl as [-> | [-> | ->]]; [left | right; left | right; right];
    (split; [reflexivity | intros f t; reflexivity]).
Qed.

End Raises.

Lemma checked_key_is_served_witness :
  platform_key (Host.env "linux2" "64bit") (_get_pandoc_urls "1.19.1") Host.world
  = (Ok "linux", Host.world)
  ∧ is_Some (DEFAULT_TARGET_FOLDER !! "linux")
  ∧ ∀ f t, dispatch (Host.env "linux2" "64bit") "linux" f t
           = _handle_linux (Host.env "linux2" "64bit") f t.
Proof.
  split; [reflexivity |].
  destruct (checked_key_is_served (Host.env "linux2" "64bit") "1.19.1" Host.world
              Host.world "linux" eq_refl) as (_ & Hd & Hh).
  split; [exact Hd |].
  destruct Hh as [[E _] | [[_ H] | [E _]]]; [discriminate E | exact H | discriminate E].
Defined.

(** ** Requests *)

Section Requests.

Context (env : Env).

Lemma isfile_outcome p w : ∃ b, os_path_isfile env p w = (Ok b, w).
Proof. unfold os_path_isfile. destruct (String.eqb p ""); eauto. Qed.

Lemma fetch_calls u w :
  calls (fetch env u w).2 = calls w ∨ calls (fetch env u w).2 = calls w ++ [u].
Proof.
  destruct (isfile_outcome (basename u) w) as [[] Hb].
  - left. now rewrite fetch_present.
  - right. now apply fetch_calls_absent.
Qed.

(** X3. One run of [download_pandoc] makes at most one request, whatever
    happens: the channel log after the run is the log before, or the log
    before with one URL added.  No path through the function retries or
    downloads twice. *)
Theorem download_pandoc_at_most_one_request
    (url tf ver : option string) (w : World) :
  ∃ l, calls (download_pandoc env url tf ver w).2 = calls w ++ l ∧ (length l ≤ 1)%nat.
Proof.
  assert (Hnone : ∀ out : result unit * World,
             calls out.2 = calls w → ∃ l, calls out.2 = calls w ++ l ∧ (length l ≤ 1)%nat).
  { intros out H. exists []. rewrite app_nil_r. split; [assumption | cbn; lia]. }
  unfold download_pandoc. unfold bind at 1.
  destruct (platform_key env _ w) as [[pf | e] w1] eqn:E;
    apply platform_key_world in E as ->; [| now apply Hnone].
  unfold bind at 1.
  match goal with
  | |- context [match ?m w with _ => _ end] => assert (Hu : (∃ u, m = ret u) ∨ (∃ e, m = raise e))
  end.
  { destruct url; [left; eauto |]. destruct (_ !! pf); [left | right]; eauto. }
  destruct Hu as [[u ->] | [e ->]]; [| now apply Hnone].
  cbn [ret]. rewrite calls_bind_keeps.
  - destruct (fetch_calls u w) as [H | H].
    + exists []. rewrite app_nil_r. split; [assumption | cbn; lia].
    + exists [u]. split; [assumption | cbn; lia].
  - intros name. apply keeps_bind; [apply keeps_make_target |].
    intros t. apply keeps_dispatch.
Qed.

(** Where a new file can be made, a response whose connection drops
    after [n] bytes leaves the file holding those bytes, and the read
    raises. *)
Lemma response_cut_short p body n w :
  p ≠ "" →
  fs w !! op_abspath (os_path env) (cwd w) p = None →
  is_dir (fs w !! op_parent (os_path env) (op_abspath (os_path env) (cwd w) p)) = true →
  denied env (op_abspath (os_path env) (cwd w) p) = false →
  (let* out_file := open_wb env p in
   shutil_copyfileobj (mkResponse body (Some n)) out_file) w
  = (Raise (IncompleteRead (String.substring 0 n body)),
     set_fs (<[op_abspath (os_path env) (cwd w) p
               := File (String.substring 0 n body) (default_file_mode env)]> (fs w)) w).
Proof.
  intros Hne Hnone Hpar Hden. apply String.eqb_neq in Hne.
  unfold open_wb, write_file, resolve, shutil_copyfileobj, bind. rewrite Hne, Hnone.
  destruct (fs w !! op_parent _ _) as [[] |]; try discriminate.
  rewrite Hden. cbn [cwd fs set_fs r_cut r_body].
  rewrite lookup_insert_eq. cbn [fs set_fs]. now rewrite insert_insert_eq.
Qed.


(** [split] on a string that ends with the separator: at least two
    pieces, the last one empty. *)
Lemma split_trailing_pieces (c : ascii) (s : string) :
  ∃ hd tl, Str.split c (s +:+ String c EmptyString) = hd :: tl
           ∧ tl ≠ [] ∧ List.last tl EmptyString = EmptyString.
Proof.
  induction s as [| a s (hd & tl & E & Hne & Hl)].
  - change ("" +:+ String c "") with (String c "").
    exists "", [""]. cbn [Str.split]. rewrite Ascii.eqb_refl. now repeat split.
  - change (String a s +:+ String c "") with (String a (s +:+ String c "")).
    cbn [Str.split]. rewrite E. destruct (Ascii.eqb a c).
    + exists "", (hd :: tl). repeat split; [discriminate |].
      destruct tl; [contradiction | exact Hl].
    + exists (String a hd), tl. now repeat split.
Qed.

Lemma split_trailing (c : ascii) (s : string) :
  Str.last (Str.split c (s +:+ String c EmptyString)) = "".
Proof.
  destruct (split_trailing_pieces c s) as (hd & tl & E & Hne & Hl).
  unfold Str.last. rewrite E. destruct tl; [contradiction | exact Hl].
Qed.

(** X5. A URL that ends with a slash has the empty string as its last
    segment.  No file has that name, so the request is made all the
    same, and when the server answers the body cannot be stored: the run
    ends with [ENOENT] after the download, before anything is unpacked. *)
Theorem url_with_trailing_slash_is_fetched_in_vain (u body : string) (w : World) :
  remote env (u +:+ "/") = Some body →
  basename (u +:+ "/") = ""
  ∧ fetch env (u +:+ "/") w
    = (Raise (OSError ENOENT ""),
       add_call (u +:+ "/")
         (add_line ("* Downloading pandoc from " +:+ (u +:+ "/") +:+ " ...") w)).
Proof.
  intros Hr.
  assert (Hb : basename (u +:+ "/") = "") by apply split_trailing.
  split; [assumption |].
  rewrite fetch_absent.
  - rewrite Hr, Hb. reflexivity.
  - rewrite Hb. reflexivity.
Qed.

(** X6. A directory that bears the name of the archive is not taken for
    the archive: the request is made, and storing the body fails with
    [EISDIR], the directory untouched. *)
Theorem directory_named_like_archive (u body : string) (w : World) (m : Z) :
  basename u ≠ "" →
  fs w !! op_abspath (os_path env) (cwd w) (basename u) = Some (Dir m) →
  remote env u = Some body →
  fetch env u w
  = (Raise (OSError EISDIR (basename u)),
     add_call u (add_line ("* Downloading pandoc from " +:+ u +:+ " ...") w)).
Proof.
  intros Hne Hd Hr. apply String.eqb_neq in Hne.
  rewrite fetch_absent.
  - rewrite Hr. unfold open_wb, write_file, resolve, bind. rewrite Hne.
    cbn [cwd fs add_call add_line]. now rewrite Hd.
  - unfold os_path_isfile. now rewrite Hne, Hd.
Qed.

End Requests.

(** ** The target folder step *)

Section Target.

Context (env : Env).

Lemma dirs_only_ret {A} (a : A) : only_makes_dirs (ret a).
Proof. intros w. cbn. auto. Qed.

Lemma dirs_only_raise {A} e : only_makes_dirs (@raise A e).
Proof. intros w. cbn. auto. Qed.

Lemma dirs_only_bind {A B} (m : M A) (k : A → M B) :
  only_makes_dirs m → (∀ a, only_makes_dirs (k a)) → only_makes_dirs (bind m k).
Proof.
  intros Hm Hk w. unfold bind. specialize (Hm w).
  destruct (m w) as [[a | e] w1]; cbn [snd] in *; [| assumption].
  destruct Hm as (Hc & Hold & Hnew). destruct (Hk a w1) as (Hc' & Hold' & Hnew').
  split; [congruence |]. split.
  - intros p n Hp. now apply Hold', Hold.
  - intros p Hp. destruct (Hnew p Hp) as [Hn | Hd].
    + now apply Hnew'.
    + right. destruct (fs w1 !! p) as [n |] eqn:E; [| discriminate].
      now rewrite (Hold' p n E).
Qed.

Lemma dirs_only_for_each {A} (l : list A) (body : A → M unit) :
  (∀ a, only_makes_dirs (body a)) → only_makes_dirs (for_each l body).
Proof.
  intros Hb. induction l as [| x l IH]; cbn [for_each].
  - apply dirs_only_ret.
  - apply dirs_only_bind; auto.
Qed.

Lemma dirs_only_resolve p : only_makes_dirs (resolve env p).
Proof. intros w. unfold resolve. destruct (String.eqb p ""); cbn; auto. Qed.

Lemma dirs_only_mkdir_at r shown mode : only_makes_dirs (mkdir_at env r shown mode).
Proof.
  intros w. unfold mkdir_at.
  destruct (fs w !! r) as [n |] eqn:Er; [cbn; auto |].
  destruct (Str.has_nul shown); [cbn; auto |].
  destruct (fs w !! op_parent (os_path env) r) as [[] |]; try (cbn; auto).
  destruct (denied env r); [cbn; auto |]. cbn [snd cwd fs set_fs].
  split; [reflexivity |]. split.
  - intros p n Hp. rewrite lookup_insert_ne; [assumption | congruence].
  - intros p Hp. destruct (decide (r = p)) as [-> | Hne].
    + right. now rewrite lookup_insert_eq.
    + left. now rewrite lookup_insert_ne.
Qed.

Lemma dirs_only_makedirs p : only_makes_dirs (os_makedirs env p).
Proof.
  unfold os_makedirs. apply dirs_only_bind; [apply dirs_only_resolve | intros r].
  apply dirs_only_bind; [| intros _; apply dirs_only_mkdir_at].
  apply dirs_only_for_each. intros a w.
  destruct (fs w !! a) eqn:E.
  - cbn. auto.
  - apply dirs_only_mkdir_at.
Qed.


End Target.


(** ** The working directory *)

Section Cwd.

Context (env : Env).

Lemma cwd_ret {A} (a : A) : keeps_cwd (ret a).
Proof. now intros w. Qed.

Lemma cwd_raise {A} e : keeps_cwd (@raise A e).
Proof. now intros w. Qed.

Lemma cwd_bind {A B} (m : M A) (k : A → M B) :
  keeps_cwd m → (∀ a, keeps_cwd (k a)) → keeps_cwd (bind m k).
Proof.
  intros Hm Hk w. unfold bind. specialize (Hm w).
  destruct (m w) as [[a | e] w1]; cbn in *; [| assumption].
  now rewrite Hk.
Qed.

Lemma cwd_for_each {A} (l : list A) (body : A → M unit) :
  (∀ a, keeps_cwd (body a)) → keeps_cwd (for_each l body).
Proof.
  intros Hb. induction l as [| x l IH]; cbn [for_each].
  - apply cwd_ret.
  - apply cwd_bind; auto.
Qed.

Ltac cwd_by_cases :=
  let w := fresh "w" in
  intros w; repeat (case_match; try reflexivity); reflexivity.

Lemma cwd_resolve p : keeps_cwd (resolve env p).
Proof. unfold resolve. cwd_by_cases. Qed.

Lemma cwd_print l : keeps_cwd (print l).
Proof. now intros w. Qed.

Lemma cwd_mkdir_at r shown mode : keeps_cwd (mkdir_at env r shown mode).
Proof. unfold mkdir_at. cwd_by_cases. Qed.

Lemma cwd_mkdtemp_from names : keeps_cwd (mkdtemp_from env names).
Proof.
  induction names as [| n rest IH]; cbn [mkdtemp_from]; [apply cwd_raise |].
  intros w. pose proof (cwd_mkdir_at n n o700 w) as Hm.
  destruct (mkdir_at env n n o700 w) as [[u | e] w1]; cbn in *; [assumption |].
  destruct e; cbn; try assumption.
  destruct code; cbn; try assumption. now rewrite IH.
Qed.

Lemma cwd_check_call cmd : keeps_cwd (subprocess_check_call env cmd).
Proof. unfold subprocess_check_call. cwd_by_cases. Qed.

Lemma cwd_read_file p : keeps_cwd (read_file env p).
Proof.
  unfold read_file. apply cwd_bind; [apply cwd_resolve | intros r]. cwd_by_cases.
Qed.

Lemma cwd_write_file p data : keeps_cwd (write_file env p data).
Proof.
  unfold write_file. apply cwd_bind; [apply cwd_resolve | intros r]. cwd_by_cases.
Qed.

Lemma cwd_copyfile src dst : keeps_cwd (shutil_copyfile env src dst).
Proof.
  unfold shutil_copyfile.
  apply cwd_bind; [apply cwd_resolve | intros rs].
  apply cwd_bind; [apply cwd_resolve | intros rd].
  destruct (String.eqb rs rd); [apply cwd_raise |].
  apply cwd_bind; [apply cwd_read_file | intros data; apply cwd_write_file].
Qed.

Lemma cwd_stat p : keeps_cwd (os_stat_st_mode env p).
Proof.
  unfold os_stat_st_mode. apply cwd_bind; [apply cwd_resolve | intros r]. cwd_by_cases.
Qed.

Lemma cwd_chmod p mode : keeps_cwd (os_chmod env p mode).
Proof.
  unfold os_chmod. apply cwd_bind; [apply cwd_resolve | intros r]. cwd_by_cases.
Qed.

Lemma cwd_rmtree p : keeps_cwd (shutil_rmtree env p).
Proof.
  unfold shutil_rmtree. apply cwd_bind; [apply cwd_resolve | intros r]. cwd_by_cases.
Qed.

Lemma cwd_make_executable p : keeps_cwd (_make_executable env p).
Proof.
  unfold _make_executable. apply cwd_bind; [apply cwd_stat | intros mode].
  apply cwd_bind; [apply cwd_print | intros _; apply cwd_chmod].
Qed.

Ltac cwd_frame :=
  repeat match goal with
    | |- keeps_cwd (bind _ _) => apply cwd_bind; [| intros ?]
    | |- keeps_cwd (for_each _ _) => apply cwd_for_each; intros ?
    | |- keeps_cwd (print _) => apply cwd_print
    | |- keeps_cwd (tempfile_mkdtemp _) => apply cwd_mkdtemp_from
    | |- keeps_cwd (subprocess_check_call _ _) => apply cwd_check_call
    | |- keeps_cwd (shutil_copyfile _ _ _) => apply cwd_copyfile
    | |- keeps_cwd (shutil_rmtree _ _) => apply cwd_rmtree
    | |- keeps_cwd (_make_executable _ _) => apply cwd_make_executable
    end.

Lemma cwd_handle_darwin f t : keeps_cwd (_handle_darwin env f t).
Proof. unfold _handle_darwin. cwd_frame. Qed.

Lemma cwd_handle_win32 f t : keeps_cwd (_handle_win32 env f t).
Proof. unfold _handle_win32. cwd_frame. Qed.

Lemma cwd_fetch u : keeps_cwd (fetch env u).
Proof.
  intros w. destruct (fetch env u w) as [r w1] eqn:E.
  now apply fetch_preserves in E as (Hc & _).
Qed.

Lemma cwd_make_target pf tf : keeps_cwd (make_target env pf tf).
Proof.
  unfold make_target. apply cwd_bind.
  - destruct tf; [apply cwd_ret |].
    destruct (DEFAULT_TARGET_FOLDER !! pf); [apply cwd_ret | apply cwd_raise].
  - intros t. apply cwd_bind; [now intros w | intros t'].
    apply cwd_bind; [| intros; apply cwd_ret].
    intros w. unfold try_except_OSError.
    pose proof (dirs_only_makedirs env t' w) as (Hc & _).
    destruct (os_makedirs env t' w) as [[[] | e] w1]; cbn in *; [assumption |].
    now destruct e.
Qed.

(** X8. Off Linux, [download_pandoc] never moves the working directory
    of the process, however it ends: the platform check, the download
    and the target folder step do not [chdir], and neither do the macOS
    and the Windows unpacker. *)
Theorem download_keeps_cwd_off_linux (url tf ver : option string) (w : World) :
  Str.startswith "linux" (sys_platform env) = false →
  cwd (download_pandoc env url tf ver w).2 = cwd w.
Proof.
  intros Hl. revert w. change (keeps_cwd (download_pandoc env url tf ver)).
  unfold download_pandoc. intros w. unfold bind at 1.
  destruct (platform_key env _ w) as [[pf | e] w1] eqn:E;
    pose proof (platform_key_world _ _ _ _ _ E) as ->; [| reflexivity].
  assert (Hpf : pf = sys_platform env).
  { unfold platform_key, bind, ret, raise in E. rewrite Hl in E.
    destruct (_ !! sys_platform env); now simplify_eq. }
  assert (Hkey : pf = "win32" ∨ pf = "linux" ∨ pf = "darwin").
  { eapply urls_keys, platform_key_ok, E. }
  assert (Hnl : pf ≠ "linux").
  { intros ->. rewrite <- Hpf in Hl. discriminate. }
  apply cwd_bind.
  - destruct url; [apply cwd_ret |]. destruct (_ !! pf); [apply cwd_ret | apply cwd_raise].
  - intros u. apply cwd_bind; [apply cwd_fetch | intros name].
    apply cwd_bind; [apply cwd_make_target | intros t].
    unfold dispatch. destruct Hkey as [-> | [-> | ->]]; cbn.
    + apply cwd_handle_win32.
    + contradiction.
    + apply cwd_handle_darwin.
Qed.

End Cwd.

Lemma download_keeps_cwd_off_linux_witness :
  Str.startswith "linux" (sys_platform (Host.env "darwin" "64bit")) = false
  ∧ cwd (download_pandoc (Host.env "darwin" "64bit") None None None Host.world).2
    = "/home/u/dl".
Proof.
  split; [reflexivity |].
  exact (download_keeps_cwd_off_linux (Host.env "darwin" "64bit") None None None
           Host.world eq_refl).
Defined.

(** ** The Linux unpacker puts the process back where it was *)

Section LinuxCwd.

Context (env : Env).
Context (Htools : tools_keep_dirs env).

Lemma linux_finally_restores cur_wd t w :
  settled env cur_wd → settled env t →
  is_dir (fs w !! cur_wd) = true →
  is_dir (fs w !! t) = true →
  ∃ w', (os_chdir env cur_wd >>> shutil_rmtree env t) w = (Ok tt, w')
        ∧ cwd w' = cur_wd.
Proof.
  intros [Hc1 Hc2] [Ht1 Ht2] Hcd Htd.
  apply String.eqb_neq in Hc1, Ht1.
  unfold os_chdir, shutil_rmtree, resolve, bind. rewrite Hc1, Hc2.
  destruct (fs w !! cur_wd) as [[] |] eqn:E1; try discriminate.
  rewrite Ht1. cbn [cwd fs set_cwd]. rewrite Ht2.
  destruct (fs w !! t) as [[] |] eqn:E2; try discriminate.
  eexists. split; reflexivity.
Qed.


End LinuxCwd.


(** ** The name of the archive on disk *)

Lemma split_nonempty (c : ascii) (s : string) : Str.split c s ≠ [].
Proof.
  destruct s as [| a s]; cbn [Str.split]; [discriminate |].
  destruct (Ascii.eqb a c); [discriminate |].
  destruct (Str.split c s); discriminate.
Qed.

(** What follows the last separator is all that counts. *)
Lemma split_after_separator (c : ascii) (a b : string) :
  ∃ hd tl, Str.split c (a +:+ String c b) = hd :: tl
           ∧ tl ≠ [] ∧ List.last tl EmptyString = Str.last (Str.split c b).
Proof.
  induction a as [| x a (hd & tl & E & Hne & Hl)].
  - change ("" +:+ String c b) with (String c b).
    exists "", (Str.split c b). cbn [Str.split]. rewrite Ascii.eqb_refl.
    repeat split. apply split_nonempty.
  - change (String x a +:+ String c b) with (String x (a +:+ String c b)).
    cbn [Str.split]. rewrite E. destruct (Ascii.eqb x c).
    + exists "", (hd :: tl). repeat split; [discriminate |].
      destruct tl; [contradiction | exact Hl].
    + exists (String x hd), tl. now repeat split.
Qed.

Lemma basename_after_slash (a b : string) : basename (a +:+ String "/" b) = basename b.
Proof.
  destruct (split_after_separator Str.slash a b) as (hd & tl & E & Hne & Hl).
  unfold basename, Str.last at 1. change (Ascii.Ascii _ _ _ _ _ _ _ _) with Str.slash.
  rewrite E. destruct tl; [contradiction | exact Hl].
Qed.

Lemma basename_without_slash (s : string) : has_slash s = false → basename s = s.
Proof.
  unfold basename. intros H.
  assert (E : Str.split Str.slash s = [s]); [| now rewrite E].
  induction s as [| a s IH]; [reflexivity |].
  cbn [has_slash] in H. apply orb_false_iff in H as [Ha Hs].
  cbn [Str.split]. rewrite Ha, (IH Hs). reflexivity.
Qed.

Lemma has_slash_app (a b : string) :
  has_slash (a +:+ b) = (has_slash a || has_slash b)%bool.
Proof.
  induction a as [| x a IH]; [reflexivity |].
  change (String x a +:+ b) with (String x (a +:+ b)).
  cbn [has_slash]. now rewrite IH, orb_assoc.
Qed.

Lemma length_app_str (a b : string) :
  String.length (a +:+ b) = (String.length a + String.length b)%nat.
Proof.
  induction a as [| x a IH]; [reflexivity |].
  change (String x a +:+ b) with (String x (a +:+ b)). cbn [String.length]. now rewrite IH.
Qed.

Lemma app_eq_same_length (a b x y : string) :
  a +:+ x = b +:+ y → String.length a = String.length b → a = b.
Proof.
  revert b. induction a as [| c a IH]; intros [| d b] E Hlen; try discriminate.
  - reflexivity.
  - change (String c (a +:+ x) = String d (b +:+ y)) in E.
    inversion E; subst. f_equal. apply IH; [assumption | now inversion Hlen].
Qed.

(** The archive of a version, by platform suffix. *)
Lemma archive_of_url (V sfx : string) :
  has_slash V = false → has_slash sfx = false →
  basename ((release_base +:+ V +:+ "/pandoc-" +:+ V) +:+ sfx) = "pandoc-" +:+ V +:+ sfx.
Proof.
  intros HV Hs.
  replace ((release_base +:+ V +:+ "/pandoc-" +:+ V) +:+ sfx)
    with ((release_base +:+ V) +:+ String "/" ("pandoc-" +:+ V +:+ sfx)).
  - rewrite basename_after_slash. apply basename_without_slash.
    now rewrite !has_slash_app, HV, Hs.
  - rewrite !app_assoc_str. reflexivity.
Qed.

(** X10. For a version without a slash, the archive is kept on disk under
    [pandoc-V-windows.msi], [pandoc-V-1-amd64.deb] or [pandoc-V-osx.pkg]:
    the last segment of the URL of the platform.  Archives of two
    versions for one platform therefore have different names, and an
    archive already on disk is never taken for that of another version. *)
Theorem archive_names (V : string) :
  has_slash V = false →
  basename <$> _get_pandoc_urls V !! "win32" = Some ("pandoc-" +:+ V +:+ "-windows.msi")
  ∧ basename <$> _get_pandoc_urls V !! "linux" = Some ("pandoc-" +:+ V +:+ "-1-amd64.deb")
  ∧ basename <$> _get_pandoc_urls V !! "darwin" = Some ("pandoc-" +:+ V +:+ "-osx.pkg")
  ∧ ∀ V' pf, has_slash V' = false →
      is_Some (_get_pandoc_urls V !! pf) →
      basename <$> _get_pandoc_urls V !! pf = basename <$> _get_pandoc_urls V' !! pf →
      V = V'.
Proof.
  intros HV.
  assert (Hw : ∀ W, has_slash W = false →
            basename <$> _get_pandoc_urls W !! "win32"
            = Some ("pandoc-" +:+ W +:+ "-windows.msi")).
  { intros W HW. rewrite urls_win32. cbn [fmap option_fmap option_map].
    now rewrite archive_of_url. }
  assert (Hl : ∀ W, has_slash W = false →
            basename <$> _get_pandoc_urls W !! "linux"
            = Some ("pandoc-" +:+ W +:+ "-1-amd64.deb")).
  { intros W HW. rewrite urls_linux. cbn [fmap option_fmap option_map].
    now rewrite (archive_of_url W ("-1" +:+ "-amd64.deb")). }
  assert (Hd : ∀ W, has_slash W = false →
            basename <$> _get_pandoc_urls W !! "darwin"
            = Some ("pandoc-" +:+ W +:+ "-osx.pkg")).
  { intros W HW. rewrite urls_darwin. cbn [fmap option_fmap option_map].
    now rewrite archive_of_url. }
  assert (Hinj : ∀ W W' sfx, "pandoc-" +:+ W +:+ sfx = "pandoc-" +:+ W' +:+ sfx → W = W').
  { intros W W' sfx E. apply (String.app_inj "pandoc-") in E.
    apply (app_eq_same_length _ _ _ _ E).
    apply (f_equal String.length) in E. rewrite !length_app_str in E. lia. }
  repeat split; auto.
  intros V' pf HV' Hsome E. apply urls_keys in Hsome as [-> | [-> | ->]].
  - rewrite (Hw V HV), (Hw V' HV') in E. apply (inj Some) in E. exact (Hinj _ _ _ E).
  - rewrite (Hl V HV), (Hl V' HV') in E. apply (inj Some) in E. exact (Hinj _ _ _ E).
  - rewrite (Hd V HV), (Hd V' HV') in E. apply (inj Some) in E. exact (Hinj _ _ _ E).
Qed.

Lemma archive_names_witness :
  has_slash "2.0" = false
  ∧ basename <$> _get_pandoc_urls "2.0" !! "linux" = Some "pandoc-2.0-1-amd64.deb".
Proof.
  split; [reflexivity |].
  exact (proj1 (proj2 (archive_names "2.0" eq_refl))).
Defined.

(** ** What the platform key and the architecture decide *)

(** X11. Every platform key that starts with [linux] ([linux2] of
    Python 2, [linux3], ...) is handled as [linux]: on such a host
    [download_pandoc] does exactly what it does on the same host under
    the key [linux]. *)
Theorem linux_prefixed_key_is_linux
    (env : Env) (url tf ver : option string) (w : World) :
  Str.startswith "linux" (sys_platform env) = true →
  download_pandoc env url tf ver w
  = download_pandoc (with_platform "linux" env) url tf ver w.
Proof.
  intros Hl. unfold download_pandoc.
  assert (E : ∀ urls, platform_key env urls w
                      = platform_key (with_platform "linux" env) urls w).
  { intros urls. unfold platform_key. rewrite Hl. reflexivity. }
  unfold bind at 1 5. rewrite E.
  destruct (platform_key (with_platform "linux" env) _ w) as [[pf | e] w1];
    reflexivity.
Qed.

Lemma linux_prefixed_key_is_linux_witness :
  Str.startswith "linux" (sys_platform (Host.env "linux2" "64bit")) = true
  ∧ download_pandoc (Host.env "linux2" "64bit") None None None Host.world
    = download_pandoc (Host.env "linux" "64bit") None None None Host.world.
Proof.
  split; [reflexivity |].
  exact (linux_prefixed_key_is_linux (Host.env "linux2" "64bit") None None None
           Host.world eq_refl).
Defined.

(** X12. The architecture is looked at on Linux only: under a platform
    key that does not start with [linux], [download_pandoc] does the
    same whatever [platform.architecture()] reports, 32-bit hosts
    included. *)
Theorem architecture_matters_on_linux_only
    (env : Env) (arch : string) (url tf ver : option string) (w : World) :
  Str.startswith "linux" (sys_platform env) = false →
  download_pandoc env url tf ver w
  = download_pandoc (with_architecture arch env) url tf ver w.
Proof.
  intros Hl. unfold download_pandoc.
  assert (E : ∀ urls, platform_key env urls w
                      = platform_key (with_architecture arch env) urls w).
  { intros urls. unfold platform_key. cbn [sys_platform with_architecture].
    rewrite Hl. reflexivity. }
  unfold bind at 1 5. rewrite E.
  destruct (platform_key (with_architecture arch env) _ w) as [[pf | e] w1];
    reflexivity.
Qed.

Lemma architecture_matters_on_linux_only_witness :
  Str.startswith "linux" (sys_platform (Host.env "darwin" "64bit")) = false
  ∧ download_pandoc (Host.env "darwin" "64bit") None None None Host.world
    = download_pandoc (Host.env "darwin" "32bit") None None None Host.world.
Proof.
  split; [reflexivity |].
  exact (architecture_matters_on_linux_only (Host.env "darwin" "64bit") "32bit"
           None None None Host.world eq_refl).
Defined.

(** ** Running [_make_executable] again *)

Lemma make_executable_runs (env : Env) (path d : string) (m : Z) (w : World) :
  path ≠ "" →
  fs w !! op_abspath (os_path env) (cwd w) path = Some (File d m) →
  _make_executable env path w
  = (Ok tt,
     set_fs (<[op_abspath (os_path env) (cwd w) path
               := File d (Z.lor m (Z.shiftr (Z.land m o444) 2))]> (fs w))
       (add_line ("* Making " +:+ path +:+ " executeable...") w)).
Proof.
  intros Hpath Hfile. apply String.eqb_neq in Hpath.
  unfold _make_executable, os_stat_st_mode, os_chmod, resolve, print, modify, bind.
  rewrite Hpath, Hfile. cbn [st_mode set_mode cwd fs add_line].
  rewrite Hfile. cbn [st_mode set_mode].
  now rewrite chmod_keeps_computed_mode.
Qed.

(** Copying the read bits to the execute bits twice is copying them once. *)
Lemma copy_read_to_execute_idempotent (m : Z) :
  let g := fun m => Z.lor m (Z.shiftr (Z.land m o444) 2) in
  g (g m) = g m.
Proof.
  intros g. subst g. cbv beta. apply Z.bits_inj'. intros i Hi.
  rewrite !copy_read_to_execute_bits.
  destruct (Z.eqb_spec i 0), (Z.eqb_spec i 3), (Z.eqb_spec i 6),
    (Z.eqb_spec (i + 2) 0), (Z.eqb_spec (i + 2) 3), (Z.eqb_spec (i + 2) 6);
    try lia;
    destruct (Z.testbit m i), (Z.testbit m (i + 2)), (Z.testbit m (i + 2 + 2));
    reflexivity.
Qed.

(** X13. [_make_executable] can be run again at no cost: on a file it
    has already been run on, a second run ends normally and leaves the
    file system exactly as the first run left it.  Nor does it give
    execute to anyone who had neither read nor execute before. *)
Theorem make_executable_idempotent (env : Env) (path d : string) (m : Z) (w : World) :
  path ≠ "" →
  fs w !! op_abspath (os_path env) (cwd w) path = Some (File d m) →
  let w1 := (_make_executable env path w).2 in
  let m' := Z.lor m (Z.shiftr (Z.land m o444) 2) in
  (_make_executable env path w1).1 = Ok tt
  ∧ fs (_make_executable env path w1).2 = fs w1
  ∧ (Z.testbit m' 6 = true → Z.testbit m 6 = true ∨ Z.testbit m 8 = true)
  ∧ (Z.testbit m' 3 = true → Z.testbit m 3 = true ∨ Z.testbit m 5 = true)
  ∧ (Z.testbit m' 0 = true → Z.testbit m 0 = true ∨ Z.testbit m 2 = true).
Proof.
  intros Hpath Hfile w1 m'.
  assert (E1 : w1 = set_fs (<[op_abspath (os_path env) (cwd w) path := File d m']> (fs w))
                      (add_line ("* Making " +:+ path +:+ " executeable...") w)).
  { subst w1. now rewrite (make_executable_runs env path d m w). }
  assert (Hfile1 : fs w1 !! op_abspath (os_path env) (cwd w1) path = Some (File d m')).
  { rewrite E1. cbn [cwd fs set_fs add_line]. apply lookup_insert_eq. }
  rewrite (make_executable_runs env path d m' w1 Hpath Hfile1).
  cbn [fst snd fs set_fs].
  split; [reflexivity |]. split.
  - subst m'. rewrite copy_read_to_execute_idempotent.
    apply insert_id. exact Hfile1.
  - subst m'. rewrite !copy_read_to_execute_bits.
    change (6 + 2) with 8. change (3 + 2) with 5. change (0 + 2) with 2.
    repeat split; intros H; apply orb_prop in H as [H | H]; auto;
      apply andb_prop in H as [_ H]; auto.
Qed.

Lemma make_executable_idempotent_witness :
  "pandoc" ≠ ""
  ∧ fs (Host.world_with "pandoc")
      !! op_abspath posixpath (cwd (Host.world_with "pandoc")) "pandoc"
    = Some (File "archive" 0x81a4)
  ∧ fs (_make_executable (Host.env "linux" "64bit") "pandoc"
          (_make_executable (Host.env "linux" "64bit") "pandoc"
             (Host.world_with "pandoc")).2).2
    = fs (_make_executable (Host.env "linux" "64bit") "pandoc"
            (Host.world_with "pandoc")).2.
Proof.
  split; [discriminate |]. split; [reflexivity |].
  refine (proj1 (proj2 (make_executable_idempotent
                          (Host.env "linux" "64bit") "pandoc" "archive" 0x81a4
                          (Host.world_with "pandoc") _ _))).
  - discriminate.
  - reflexivity.
Defined.

(** ** A successful unpack leaves no scratch directory *)

Section ScratchOnSuccess.

Context (env : Env).

Lemma bind_ok {A B} (m : M A) (k : A → M B) w b w' :
  bind m k w = (Ok b, w') → ∃ a w1, m w = (Ok a, w1) ∧ k a w1 = (Ok b, w').
Proof.
  unfold bind. destruct (m w) as [[a | e] w1]; [eauto | discriminate].
Qed.

Lemma rmtree_ok p w w' :
  shutil_rmtree env p w = (Ok tt, w') →
  fs w' !! op_abspath (os_path env) (cwd w) p = None.
Proof.
  unfold shutil_rmtree, resolve, bind. intros H.
  repeat case_match; simplify_eq. cbn [fs set_fs].
  apply map_lookup_filter_None_2. right. intros x _ [Hne _]. now apply Hne.
Qed.

Lemma print_ok l w r w' : print l w = (r, w') → fs w' = fs w.
Proof. unfold print, modify. intros H. now simplify_eq. Qed.

(** X14. When the macOS or the Windows unpacker ends normally, the
    scratch directory it made is gone: on the success path
    [shutil.rmtree] has run and has gone through. *)
Theorem scratch_removed_on_success (filename targetfolder : string) (w w0 : World)
    (t : string) :
  settled env t →
  tempfile_mkdtemp env (add_line ("* Unpacking " +:+ filename +:+ " to tempfolder...") w)
  = (Ok t, w0) →
  ((_handle_darwin env filename targetfolder w).1 = Ok tt →
   fs (_handle_darwin env filename targetfolder w).2 !! t = None)
  ∧ ((_handle_win32 env filename targetfolder w).1 = Ok tt →
     fs (_handle_win32 env filename targetfolder w).2 !! t = None).
Proof.
  intros [_ Ht] Hmk. split; intros Hok.
  - destruct (_handle_darwin env filename targetfolder w) as [r w'] eqn:E.
    cbn [fst snd] in *. subst r. unfold _handle_darwin in E.
    apply bind_ok in E as ([] & wa & Hp & E). unfold print, modify in Hp.
    simplify_eq. apply bind_ok in E as (t' & w0' & Hmk' & E).
    rewrite Hmk in Hmk'. simplify_eq.
    apply bind_ok in E as ([] & w1 & _ & E).
    apply bind_ok in E as ([] & w2 & _ & E).
    apply bind_ok in E as ([] & w3 & _ & E).
    apply bind_ok in E as ([] & w4 & Hrm & E).
    apply print_ok in E. rewrite E. apply rmtree_ok in Hrm. now rewrite Ht in Hrm.
  - destruct (_handle_win32 env filename targetfolder w) as [r w'] eqn:E.
    cbn [fst snd] in *. subst r. unfold _handle_win32 in E.
    apply bind_ok in E as ([] & wa & Hp & E). unfold print, modify in Hp.
    simplify_eq. apply bind_ok in E as (t' & w0' & Hmk' & E).
    rewrite Hmk in Hmk'. simplify_eq.
    apply bind_ok in E as ([] & w1 & _ & E).
    apply bind_ok in E as ([] & w2 & _ & E).
    apply bind_ok in E as ([] & w3 & Hrm & E).
    apply print_ok in E. rewrite E. apply rmtree_ok in Hrm. now rewrite Ht in Hrm.
Qed.

End ScratchOnSuccess.

Lemma scratch_removed_on_success_witness :
  settled (Host.env "darwin" "64bit") "/tmp/tmpa"
  ∧ tempfile_mkdtemp (Host.env "darwin" "64bit")
      (add_line "* Unpacking p.pkg to tempfolder..." (Host.world_with "p.pkg"))
    = (Ok "/tmp/tmpa",
       (tempfile_mkdtemp (Host.env "darwin" "64bit")
          (add_line "* Unpacking p.pkg to tempfolder..." (Host.world_with "p.pkg"))).2)
  ∧ (_handle_darwin (Host.env "darwin" "64bit") "p.pkg" "/home/u/opt"
       (Host.world_with "p.pkg")).1 = Ok tt
  ∧ fs (_handle_darwin (Host.env "darwin" "64bit") "p.pkg" "/home/u/opt"
          (Host.world_with "p.pkg")).2 !! "/tmp/tmpa" = None.
Proof.
  assert (Hs : settled (Host.env "darwin" "64bit") "/tmp/tmpa")
    by now apply host_settled.
  split; [exact Hs |]. split; [reflexivity |]. split; [reflexivity |].
  refine (proj1 (scratch_removed_on_success (Host.env "darwin" "64bit")
                   "p.pkg" "/home/u/opt" (Host.world_with "p.pkg")
                   (tempfile_mkdtemp (Host.env "darwin" "64bit")
                      (add_line "* Unpacking p.pkg to tempfolder..."
                         (Host.world_with "p.pkg"))).2
                   "/tmp/tmpa" Hs _) _).
  - reflexivity.
  - reflexivity.
Defined.

(** ** Witnesses for the request properties *)


Lemma url_with_trailing_slash_witness :
  remote (Host.env "linux" "64bit") ("https://example.org/dl" +:+ "/")
  = Some "body of https://example.org/dl/"
  ∧ basename ("https://example.org/dl" +:+ "/") = ""
  ∧ (fetch (Host.env "linux" "64bit") ("https://example.org/dl" +:+ "/") Host.world).1
    = Raise (OSError ENOENT "").
Proof.
  split; [reflexivity |].
  pose proof (url_with_trailing_slash_is_fetched_in_vain (Host.env "linux" "64bit")
                "https://example.org/dl" "body of https://example.org/dl/" Host.world
                eq_refl) as [Hb Hf].
  split; [exact Hb |]. now rewrite Hf.
Defined.

Lemma directory_named_like_archive_witness :
  basename "https://example.org/dl/opt" ≠ ""
  ∧ fs (set_cwd "/home/u" (Host.world_with "p.deb"))
      !! op_abspath posixpath "/home/u" (basename "https://example.org/dl/opt")
    = Some (Dir 0x41ed)
  ∧ remote (Host.env "linux" "64bit") "https://example.org/dl/opt"
    = Some "body of https://example.org/dl/opt"
  ∧ (fetch (Host.env "linux" "64bit") "https://example.org/dl/opt"
       (set_cwd "/home/u" (Host.world_with "p.deb"))).1
    = Raise (OSError EISDIR "opt").
Proof.
  split; [discriminate |]. split; [reflexivity |]. split; [reflexivity |].
  rewrite (directory_named_like_archive (Host.env "linux" "64bit")
             "https://example.org/dl/opt" "body of https://example.org/dl/opt"
             (set_cwd "/home/u" (Host.world_with "p.deb")) 0x41ed).
  - reflexivity.
  - discriminate.
  - reflexivity.
  - reflexivity.
Defined.
